(** * pynbp: the Numeric Broadcast Protocol broadcaster

    A shallow embedding of [pynbp/__init__.py]: the KPI state kept by
    [BasePyNBP], the packet encoder [_genpacket], and one iteration of the
    [run] loops of [PyNBP] (serial) and [WifiPyNBP] (socket).

    Conventions.
    - A Python [str] is represented by the bytes that UTF-8 gives to its
      code points one after the other, as a [string].  A [str] may hold a
      lone surrogate (U+D800 to U+DFFF), which is then the lead byte 0xED
      followed by a byte of 0xA0 to 0xBF; [str.encode] refuses such a
      [str] with [UnicodeEncodeError] and otherwise returns the bytes.
    - A Python [float] is a binary64 value of [spec_float]; the time
      arithmetic of the rate gate is [SFsub] and [SFltb] at precision 53.
    - The insertion-ordered [dict] [self.kpis] is an association list whose
      order is the dict's iteration order.
    - Calls into the operating system (queue, serial port, socket, clock)
      are answered by a per-iteration environment record; an exception that
      leaves [run] is the outcome [Escape]. *)

From Stdlib Require Import List String Ascii Bool ZArith NArith Lia.
From Stdlib Require Import DecimalString DecimalPos DecimalZ.
From Stdlib Require Import Floats.SpecFloat.
Import ListNotations.

Local Open Scope string_scope.
Local Open Scope list_scope.

(** ** Python values *)

Module Py.

(** Binary64 operations. *)
Definition float := spec_float.
Definition prec : Z := 53.
Definition emax : Z := 1024.
Definition fsub : float -> float -> float := SFsub prec emax.
Definition flt : float -> float -> bool := SFltb.
Definition fzero : float := S754_zero false.

(** The exception classes the program can meet.  [SerialTimeoutException]
    is a subclass of [SerialException]; [socket_timeout],
    [BlockingIOError], [BrokenPipeError] and [ConnectionResetError] are
    subclasses of [OSError]; [UnicodeDecodeError] and
    [UnicodeEncodeError] are subclasses of [ValueError]. *)
Inductive exn : Type :=
| SerialException
| SerialTimeoutException
| socket_timeout
| BlockingIOError
| BrokenPipeError
| ConnectionResetError
| ValueError (msg : string)
| KeyError (key : string)
| AttributeError (msg : string)
| UnicodeDecodeError
| UnicodeEncodeError.

(** [except serial.SerialException] *)
Definition is_SerialException (e : exn) : bool :=
  match e with
  | SerialException | SerialTimeoutException => true
  | _ => false
  end.

(** [except serial.SerialTimeoutException] *)
Definition is_SerialTimeoutException (e : exn) : bool :=
  match e with SerialTimeoutException => true | _ => false end.

(** [except socket.timeout] *)
Definition is_socket_timeout (e : exn) : bool :=
  match e with socket_timeout => true | _ => false end.

(** [except BlockingIOError] *)
Definition is_BlockingIOError (e : exn) : bool :=
  match e with BlockingIOError => true | _ => false end.

(** [except Exception]: every class above derives from [Exception]. *)
Definition is_Exception (e : exn) : bool := true.


(** The result of a call that may raise. *)
Inductive res (A : Type) : Type :=
| Ok (a : A)
| Raise (e : exn).
Arguments Ok {A} a.
Arguments Raise {A} e.

Definition bind {A B} (r : res A) (k : A -> res B) : res B :=
  match r with Ok a => k a | Raise e => Raise e end.

Definition bytes := list ascii.

(** The text holds a lone surrogate: the byte 0xED followed by a byte of
    0xA0 to 0xBF. *)
Fixpoint has_surrogate (text : bytes) : bool :=
  match text with
  | b0 :: rest =>
      match rest with
      | b1 :: _ =>
          (N_of_ascii b0 =? 237)%N
          && (160 <=? N_of_ascii b1)%N && (N_of_ascii b1 <=? 191)%N
      | [] => false
      end
      || has_surrogate rest
  | [] => false
  end.

(** [str.encode(s)]: strict UTF-8. *)
Definition str_encode (s : string) : res bytes :=
  let data := list_ascii_of_string s in
  if has_surrogate data then Raise UnicodeEncodeError else Ok data.

(** A number held by a KPI: a Python [int] or a Python [float]. *)
Inductive num : Type :=
| PyInt (z : Z)
| PyFloat (f : float).

End Py.
Import Py.

Notation "x <- r ;; k" := (bind r (fun x => k))
  (at level 61, r at next level, right associativity).

(** ** The data model *)

(** [NbpKPI = namedtuple("NbpKPI", "name, unit, value")] *)
Record NbpKPI : Type := mkKPI {
  name : string;
  unit : string;
  value : num
}.

(** [NbpPayload = namedtuple("NbpPayload", "timestamp, packettype, nbpkpilist")] *)
Record NbpPayload : Type := mkPayload {
  timestamp : float;
  packettype : string;
  nbpkpilist : list NbpKPI
}.

(** *** The insertion-ordered dict [self.kpis] *)

Definition dict := list (string * NbpKPI).

(** [d[k] = v]: overwrite in place when the key is present, append
    otherwise. *)
Fixpoint dict_set (d : dict) (k : string) (v : NbpKPI) : dict :=
  match d with
  | [] => [(k, v)]
  | (k', v') :: d' =>
      if String.eqb k' k then (k', v) :: d'
      else (k', v') :: dict_set d' k v
  end.

(** [d[k]], raising [KeyError] when the key is absent. *)
Fixpoint dict_get (d : dict) (k : string) : res NbpKPI :=
  match d with
  | [] => Raise (KeyError k)
  | (k', v) :: d' => if String.eqb k' k then Ok v else dict_get d' k
  end.

(** [d.values()] *)
Definition dict_values (d : dict) : list NbpKPI := map snd d.

(** [d.keys()] *)
Definition dict_keys (d : dict) : list string := map fst d.

(** [k in l] for a list of strings. *)
Definition str_in (k : string) (l : list string) : bool :=
  existsb (String.eqb k) l.

(** *** The fields of [BasePyNBP]

    [nbpqueue] is not a field of the model: the payloads it delivers are
    the inputs of the iterations. *)
Record BasePyNBP : Type := mkBase {
  device_name : string;
  protocol_version : string;
  last_update_time : float;
  packettime : float;
  kpis : dict;
  updatelist : list string;
  min_update_interval : float
}.

(** [BasePyNBP.__init__] *)
Definition init (device_name protocol_version : string)
    (min_update_interval : float) : BasePyNBP :=
  {| device_name := device_name;
     protocol_version := protocol_version;
     last_update_time := fzero;
     packettime := fzero;
     kpis := [];
     updatelist := [];
     min_update_interval := min_update_interval |}.

Definition set_packettime (self : BasePyNBP) (t : float) : BasePyNBP :=
  {| device_name := device_name self;
     protocol_version := protocol_version self;
     last_update_time := last_update_time self;
     packettime := t;
     kpis := kpis self;
     updatelist := updatelist self;
     min_update_interval := min_update_interval self |}.

Definition set_kpis (self : BasePyNBP) (d : dict) : BasePyNBP :=
  {| device_name := device_name self;
     protocol_version := protocol_version self;
     last_update_time := last_update_time self;
     packettime := packettime self;
     kpis := d;
     updatelist := updatelist self;
     min_update_interval := min_update_interval self |}.

Definition set_updatelist (self : BasePyNBP) (l : list string) : BasePyNBP :=
  {| device_name := device_name self;
     protocol_version := protocol_version self;
     last_update_time := last_update_time self;
     packettime := packettime self;
     kpis := kpis self;
     updatelist := l;
     min_update_interval := min_update_interval self |}.

Definition set_last_update_time (self : BasePyNBP) (t : float) : BasePyNBP :=
  {| device_name := device_name self;
     protocol_version := protocol_version self;
     last_update_time := t;
     packettime := packettime self;
     kpis := kpis self;
     updatelist := updatelist self;
     min_update_interval := min_update_interval self |}.

(** ** The state tracker: lines 106-111 and 170-175 of [run] *)

(** The body of [for kpi in nbppayload.nbpkpilist]. *)
Definition merge_kpi (self : BasePyNBP) (kpi : NbpKPI) : BasePyNBP :=
  let self1 :=
    if negb (str_in (name kpi) (updatelist self))
    then set_updatelist self (updatelist self ++ [name kpi])
    else self in
  set_kpis self1 (dict_set (kpis self1) (name kpi) kpi).

(** [self.packettime = nbppayload.timestamp], then the loop over the
    payload's KPIs. *)
Definition absorb_payload (self : BasePyNBP) (p : NbpPayload) : BasePyNBP :=
  fold_left merge_kpi (nbpkpilist p) (set_packettime self (timestamp p)).

(** Payloads applied one after the other, with no emission in between. *)
Definition absorb_all (self : BasePyNBP) (ps : list NbpPayload) : BasePyNBP :=
  fold_left absorb_payload ps self.

(** ** Text formatting *)

Definition nl : string := String "010"%char EmptyString.

(** The double quote character. *)
Definition dq : string := String "034"%char EmptyString.

(** [str(z)] for a Python [int]. *)
Definition str_int (z : Z) : string :=
  NilZero.string_of_int (Z.to_int z).

Definition digit (d : Z) : ascii := ascii_of_N (48 + Z.to_N d).

(** The six decimal digits of [n], for [0 <= n < 10^6]. *)
Definition six_digits (n : Z) : string :=
  String (digit (n / 100000 mod 10))
 (String (digit (n / 10000 mod 10))
 (String (digit (n / 1000 mod 10))
 (String (digit (n / 100 mod 10))
 (String (digit (n / 10 mod 10))
 (String (digit (n mod 10)) EmptyString))))).

(** [num / den] rounded to the nearest integer, ties to even
    ([0 <= num], [0 < den]). *)
Definition round_half_even (num den : Z) : Z :=
  let q := (num / den)%Z in
  let r := (num mod den)%Z in
  match (2 * r ?= den)%Z with
  | Lt => q
  | Gt => (q + 1)%Z
  | Eq => if Z.even q then q else (q + 1)%Z
  end.

(** [m * 2^e * 10^6] rounded to an integer: the magnitude of a finite
    float counted in millionths. *)
Definition millionths (m : positive) (e : Z) : Z :=
  if (0 <=? e)%Z then (Zpos m * 2 ^ e * 1000000)%Z
  else round_half_even (Zpos m * 1000000) (2 ^ (- e)).

Definition sign_text (s : bool) : string := if s then "-" else EmptyString.

(** ["{:.6f}".format(x)]: the exact value of the float, correctly rounded
    to six places. *)
Definition format_6f (x : float) : string :=
  match x with
  | S754_nan => "nan"
  | S754_infinity s => sign_text s ++ "inf"
  | S754_zero s => sign_text s ++ "0.000000"
  | S754_finite s m e =>
      let n := millionths m e in
      sign_text s ++ str_int (n / 1000000) ++ "." ++ six_digits (n mod 1000000)
  end.

(** *** Received text: UTF-8 decoding and [str.strip] *)

Definition byte_val (b : ascii) : N := N_of_ascii b.

Definition is_cont (b : ascii) : bool :=
  (128 <=? byte_val b)%N && (byte_val b <=? 191)%N.

Definition in_range (lo hi : N) (b : ascii) : bool :=
  (lo <=? byte_val b)%N && (byte_val b <=? hi)%N.

Definition cont_bits (b : ascii) : N := (byte_val b - 128)%N.

(** [data.decode()]: strict UTF-8, to code points; [fuel] bounds the
    number of characters and [length data] always suffices. *)
Fixpoint utf8_decode_aux (fuel : nat) (data : bytes) : res (list N) :=
  match fuel with
  | O => match data with [] => Ok [] | _ => Raise UnicodeDecodeError end
  | S fuel' =>
    match data with
    | [] => Ok []
    | b0 :: rest =>
      let v := byte_val b0 in
      if (v <? 128)%N then
        cps <- utf8_decode_aux fuel' rest ;; Ok (v :: cps)
      else if in_range 194 223 b0 then
        match rest with
        | b1 :: rest1 =>
            if is_cont b1 then
              cps <- utf8_decode_aux fuel' rest1 ;;
              Ok (((v - 192) * 64 + cont_bits b1)%N :: cps)
            else Raise UnicodeDecodeError
        | _ => Raise UnicodeDecodeError
        end
      else if in_range 224 239 b0 then
        match rest with
        | b1 :: b2 :: rest2 =>
            let lo := if (v =? 224)%N then 160%N else 128%N in
            let hi := if (v =? 237)%N then 159%N else 191%N in
            if in_range lo hi b1 && is_cont b2 then
              cps <- utf8_decode_aux fuel' rest2 ;;
              Ok ((((v - 224) * 64 + cont_bits b1) * 64 + cont_bits b2)%N :: cps)
            else Raise UnicodeDecodeError
        | _ => Raise UnicodeDecodeError
        end
      else if in_range 240 244 b0 then
        match rest with
        | b1 :: b2 :: b3 :: rest3 =>
            let lo := if (v =? 240)%N then 144%N else 128%N in
            let hi := if (v =? 244)%N then 143%N else 191%N in
            if in_range lo hi b1 && is_cont b2 && is_cont b3 then
              cps <- utf8_decode_aux fuel' rest3 ;;
              Ok (((((v - 240) * 64 + cont_bits b1) * 64 + cont_bits b2) * 64
                   + cont_bits b3)%N :: cps)
            else Raise UnicodeDecodeError
        | _ => Raise UnicodeDecodeError
        end
      else Raise UnicodeDecodeError
    end
  end.

Definition utf8_decode (data : bytes) : res (list N) :=
  utf8_decode_aux (List.length data) data.

(** The code points for which [str.isspace] holds. *)
Definition isspace (c : N) : bool :=
  ((9 <=? c) && (c <=? 13) || (28 <=? c) && (c <=? 32)
   || (c =? 133) || (c =? 160) || (c =? 5760)
   || (8192 <=? c) && (c <=? 8202)
   || (c =? 8232) || (c =? 8233) || (c =? 8239) || (c =? 8287)
   || (c =? 12288))%N.

Fixpoint lstrip (text : list N) : list N :=
  match text with
  | c :: text' => if isspace c then lstrip text' else text
  | [] => []
  end.

(** [text.strip()] *)
Definition strip (text : list N) : list N :=
  rev (lstrip (rev (lstrip text))).

(** The code points of a literal of the program (ASCII). *)
Definition codepoints (s : string) : list N :=
  map N_of_ascii (list_ascii_of_string s).

Definition text_eqb (a b : list N) : bool :=
  if list_eq_dec N.eq_dec a b then true else false.

(** ** The packet encoder *)

Section Encoder.

(** [str(x)] for a float, the interpreter's shortest round-trip form. *)
Variable float_repr : float -> string.

(** ["{}".format(v)] *)
Definition str_num (v : num) : string :=
  match v with
  | PyInt z => str_int z
  | PyFloat f => float_repr f
  end.

(** [BasePyNBP.metadata] *)
Definition metadata (self : BasePyNBP) : res bytes :=
  str_encode ("@NAME:" ++ device_name self ++ nl ++ nl).

(** [[self.kpis[k] for k in self.updatelist]] *)
Fixpoint lookup_all (d : dict) (ks : list string) : res (list NbpKPI) :=
  match ks with
  | [] => Ok []
  | k :: ks' =>
      v <- dict_get d k ;;
      vs <- lookup_all d ks' ;;
      Ok (v :: vs)
  end.

(** The body of [for kpi in kpis]. *)
Definition add_line (packet : string) (kpi : NbpKPI) : string :=
  if negb (unit kpi =? EmptyString)
  then packet ++ dq ++ name kpi ++ dq ++ "," ++ dq ++ unit kpi ++ dq ++ ":"
              ++ str_num (value kpi) ++ nl
  else packet ++ dq ++ name kpi ++ dq ++ ":" ++ str_num (value kpi) ++ nl.

(** [BasePyNBP._genpacket] *)
Definition _genpacket (self : BasePyNBP) (ptype : string) : res bytes :=
  if negb (str_in ptype ["ALL"; "UPDATE"; "METADATA"]) then
    Raise (ValueError ("Unrecognize ptype: " ++ ptype))
  else if ptype =? "METADATA" then
    metadata self
  else
    let packet :=
      ("*" ++ protocol_version self ++ "," ++ ptype ++ ","
           ++ format_6f (packettime self) ++ nl)%string in
    selected <-
      (match updatelist self with
       | _ :: _ =>
           if negb (ptype =? "ALL")
           then lookup_all (kpis self) (updatelist self)
           else Ok (dict_values (kpis self))
       | [] => Ok (dict_values (kpis self))
       end) ;;
    let packet := fold_left add_line selected packet in
    let packet := (packet ++ "#" ++ nl ++ nl)%string in
    str_encode packet.

End Encoder.

(** ** The broadcaster loops *)

(** What an iteration does to the outside world, in order. *)
Inductive event : Type :=
| LogMessage (msg : string)              (* a fixed log line *)
| LogText (text : list N)                (* [LOGGER.info] of received text *)
| LogPacket (pkt : bytes)                (* [LOGGER.warning(nbppacket.decode())] *)
| SerialWrite (pkt : bytes) (r : res Datatypes.unit) (* [serport.write], line 134 *)
| SendReply (pkt : bytes) (r : res Datatypes.unit)   (* [conn.sendall], line 197 *)
| SendPacket (pkt : bytes) (r : res Datatypes.unit)  (* [conn.sendall], line 210 *)
| ClosePort                              (* [serport.close()] *)
| CloseConn.                             (* [conn.close()] *)

(** How one pass through the body of [while True] ends: at the next
    [self.nbpqueue.get()], or with an exception that leaves [run] and ends
    the thread.  Both carry the state reached and the events so far. *)
Inductive outcome (S : Type) : Type :=
| Next (st : S) (tr : list event)
| Escape (e : exn) (st : S) (tr : list event).
Arguments Next {S} st tr.
Arguments Escape {S} e st tr.

Definition trace {S} (o : outcome S) : list event :=
  match o with Next _ tr => tr | Escape _ _ tr => tr end.

Definition state_of {S} (o : outcome S) : S :=
  match o with Next st _ => st | Escape _ st _ => st end.

Definition escaped {S} (o : outcome S) : bool :=
  match o with Next _ _ => false | Escape _ _ _ => true end.

(** [while True]: iterations follow one another until one escapes. *)
Fixpoint run_loop {S E} (step : S -> E -> outcome S) (st : S) (envs : list E)
    : outcome S :=
  match envs with
  | [] => Next st []
  | env :: envs' =>
      match step st env with
      | Next st' tr =>
          match run_loop step st' envs' with
          | Next st'' tr' => Next st'' (tr ++ tr')
          | Escape e st'' tr' => Escape e st'' (tr ++ tr')
          end
      | Escape e st' tr => Escape e st' tr
      end
  end.

(** The packets that reached the transport through the regular emission
    of lines 134 and 210. *)
Fixpoint regular_writes (tr : list event) : list bytes :=
  match tr with
  | SerialWrite pkt (Ok _) :: tr' => pkt :: regular_writes tr'
  | SendPacket pkt (Ok _) :: tr' => pkt :: regular_writes tr'
  | _ :: tr' => regular_writes tr'
  | [] => []
  end.

(** The regular emissions attempted, whatever their result. *)
Fixpoint regular_attempts (tr : list event) : list bytes :=
  match tr with
  | SerialWrite pkt _ :: tr' => pkt :: regular_attempts tr'
  | SendPacket pkt _ :: tr' => pkt :: regular_attempts tr'
  | _ :: tr' => regular_attempts tr'
  | [] => []
  end.

Section Loops.

Variable float_repr : float -> string.

(** [time.time() - self.last_update_time < self.min_update_interval] *)
Definition gate_closed (self : BasePyNBP) (now : float) : bool :=
  flt (fsub now (last_update_time self)) (min_update_interval self).

(** *** [PyNBP.run] *)

(** The locals of [PyNBP.run] beside [self].  [serport] is [None] or a
    port object, of which only [is_open] matters. *)
Record SerialState : Type := mkSerial {
  s_self : BasePyNBP;
  s_connected : bool;
  s_serport : option bool
}.

(** The answers of the outside world during one iteration, each consulted
    only if the iteration reaches the call. *)
Record SerialEnv : Type := mkSerialEnv {
  s_get : NbpPayload;                   (* [self.nbpqueue.get()] *)
  s_open : res Datatypes.unit;          (* [serial.serial_for_url(self.device)] *)
  s_in_waiting : res Z;                 (* [serport.in_waiting], line 124 *)
  s_read : res bytes;                   (* [serport.read(serport.in_waiting)] *)
  s_time_gate : float;                  (* [time.time()], line 127 *)
  s_write : res Datatypes.unit;         (* [serport.write(nbppacket)] *)
  s_time_sent : float                   (* [time.time()], line 136 *)
}.

(** [PyNBP.run] before the loop. *)
Definition serial_start (self : BasePyNBP) : SerialState :=
  mkSerial self false None.

(** Lines 124-136, the body of [try].  The result is the new [self], the
    events, and the exception raised if any; falling off the end and
    [continue] both give [None]. *)
Definition serial_try (self : BasePyNBP) (env : SerialEnv)
    : BasePyNBP * list event * option exn :=
  match s_in_waiting env with
  | Raise e => (self, [], Some e)
  | Ok n =>
    match (if (0 <? n)%Z
           then data <- s_read env ;;
                text <- utf8_decode data ;;
                Ok [LogText text]
           else Ok []) with
    | Raise e => (self, [], Some e)
    | Ok tr =>
      if gate_closed self (s_time_gate env) then (self, tr, None)
      else
        match _genpacket float_repr self (packettype (s_get env)) with
        | Raise e => (self, tr, Some e)
        | Ok nbppacket =>
          match s_write env with
          | Raise e =>
              (self, tr ++ [LogPacket nbppacket;
                            SerialWrite nbppacket (Raise e)], Some e)
          | Ok tt =>
              (set_last_update_time (set_updatelist self []) (s_time_sent env),
               tr ++ [LogPacket nbppacket; SerialWrite nbppacket (Ok tt)],
               None)
          end
        end
    end
  end.

(** Lines 104-141, one pass through the body of [while True]. *)
Definition serial_iteration (st : SerialState) (env : SerialEnv)
    : outcome SerialState :=
  let self := absorb_payload (s_self st) (s_get env) in
  (* lines 113-119 *)
  match (if negb (s_connected st) then
           match s_open env with
           | Ok _ => Ok (true, Some true, [])
           | Raise e =>
               if is_SerialException e
               then Ok (false, s_serport st,
                        [LogMessage
                           "Comm Port conection not open - waiting for connection"])
               else Raise e
           end
         else Ok (true, s_serport st, [])) with
  | Raise e => Escape e (mkSerial self (s_connected st) (s_serport st)) []
  | Ok (connected, serport, tr1) =>
    (* lines 121-122; [and] evaluates [serport.is_open] only when not
       connected *)
    match (if negb connected then
             match serport with
             | None =>
                 Raise (AttributeError
                          "'NoneType' object has no attribute 'is_open'")
             | Some is_open => Ok (negb is_open)
             end
           else Ok false) with
    | Raise e => Escape e (mkSerial self connected serport) tr1
    | Ok true => Next (mkSerial self connected serport) tr1
    | Ok false =>
      (* lines 123-141 *)
      match serport with
      | None =>
          Escape (AttributeError
                    "'NoneType' object has no attribute 'in_waiting'")
                 (mkSerial self connected serport) tr1
      | Some _ =>
        match serial_try self env with
        | (self', tr2, None) =>
            Next (mkSerial self' connected serport) (tr1 ++ tr2)
        | (self', tr2, Some e) =>
            if is_SerialTimeoutException e
            then Next (mkSerial self' false (Some false))
                      (tr1 ++ tr2
                       ++ [LogMessage "Serial Write timeout. Closing port.";
                           ClosePort])
            else Escape e (mkSerial self' connected serport) (tr1 ++ tr2)
        end
      end
    end
  end.

Definition serial_run : SerialState -> list SerialEnv -> outcome SerialState :=
  run_loop serial_iteration.

(** *** [WifiPyNBP.run] *)

(** The locals of [WifiPyNBP.run] beside [self]; [conn] is bound from the
    first successful [accept] on and is used only when [connected]. *)
Record WifiState : Type := mkWifi {
  w_self : BasePyNBP;
  w_connected : bool
}.

Record WifiEnv : Type := mkWifiEnv {
  w_get : NbpPayload;                   (* [self.nbpqueue.get()] *)
  w_accept : res string;                (* [sock.accept()], the client address *)
  w_recv : res bytes;                   (* [conn.recv(1024)] *)
  w_send_reply : res Datatypes.unit;    (* [conn.sendall], line 197 *)
  w_time_gate : float;                  (* [time.time()], line 203 *)
  w_sendall : res Datatypes.unit;       (* [conn.sendall(nbppacket)], line 210 *)
  w_time_sent : float                   (* [time.time()], line 212 *)
}.

Definition wifi_start (self : BasePyNBP) : WifiState := mkWifi self false.

(** Lines 191-197, the body of the first [try]: the events and the
    exception raised if any. *)
Definition wifi_try_recv (self : BasePyNBP) (env : WifiEnv)
    : list event * option exn :=
  match w_recv env with
  | Raise e => ([], Some e)
  | Ok [] => ([], None)
  | Ok data =>
    match utf8_decode data with
    | Raise e => ([], Some e)
    | Ok decoded =>
      let text := strip decoded in
      if text_eqb text (codepoints "!ALL") then
        let tr := [LogText text; LogMessage "ALL Packet Requested. Sending"] in
        match _genpacket float_repr self "ALL" with
        | Raise e => (tr, Some e)
        | Ok pkt =>
            (tr ++ [SendReply pkt (w_send_reply env)],
             match w_send_reply env with Ok _ => None | Raise e => Some e end)
        end
      else ([LogText text], None)
    end
  end.

(** Lines 203-212, the body of the second [try]. *)
Definition wifi_try_send (self : BasePyNBP) (env : WifiEnv)
    : BasePyNBP * list event * option exn :=
  if gate_closed self (w_time_gate env) then (self, [], None)
  else
    match _genpacket float_repr self (packettype (w_get env)) with
    | Raise e => (self, [], Some e)
    | Ok nbppacket =>
      match w_sendall env with
      | Raise e =>
          (self, [LogPacket nbppacket; SendPacket nbppacket (Raise e)], Some e)
      | Ok tt =>
          (set_last_update_time (set_updatelist self []) (w_time_sent env),
           [LogPacket nbppacket; SendPacket nbppacket (Ok tt)], None)
      end
    end.

(** Lines 201-217: the second [try] with its handler. *)
Definition wifi_finish (self : BasePyNBP) (env : WifiEnv) (tr : list event)
    : outcome WifiState :=
  match wifi_try_send self env with
  | (self', tr3, None) => Next (mkWifi self' true) (tr ++ tr3)
  | (self', tr3, Some e) =>
      if is_Exception e
      then Next (mkWifi self' false)
                (tr ++ tr3
                 ++ [LogMessage "Wifi Write Failed. Closing port."; CloseConn])
      else Escape e (mkWifi self' true) (tr ++ tr3)
  end.

(** Lines 168-217, one pass through the body of [while True]. *)
Definition wifi_iteration (st : WifiState) (env : WifiEnv)
    : outcome WifiState :=
  let self := absorb_payload (w_self st) (w_get env) in
  (* lines 177-186 *)
  match (if negb (w_connected st) then
           match w_accept env with
           | Ok client_address =>
               Ok (true,
                   [LogMessage ("Connection from " ++ client_address ++ " open")])
           | Raise e =>
               if is_socket_timeout e
               then Ok (false,
                        [LogMessage
                           "Socket conection not open - waiting for connection"])
               else Raise e
           end
         else Ok (true, [])) with
  | Raise e => Escape e (mkWifi self (w_connected st)) []
  | Ok (false, tr1) => Next (mkWifi self false) tr1      (* lines 188-189 *)
  | Ok (true, tr1) =>
    (* lines 190-200 *)
    match wifi_try_recv self env with
    | (tr2, Some e) =>
        if is_BlockingIOError e then
          wifi_finish self env (tr1 ++ tr2)
        else Escape e (mkWifi self true) (tr1 ++ tr2)
    | (tr2, None) => wifi_finish self env (tr1 ++ tr2)
    end
  end.

Definition wifi_run : WifiState -> list WifiEnv -> outcome WifiState :=
  run_loop wifi_iteration.

End Loops.

(** ** Specification-side definitions *)

(** *** The state tracker *)

(** All KPIs of a sequence of payloads, in arrival order. *)
Definition all_kpis (ps : list NbpPayload) : list NbpKPI :=
  flat_map nbpkpilist ps.

(** The names of a list in first-seen order, each once. *)
Fixpoint first_seen (l : list string) : list string :=
  match l with
  | [] => []
  | x :: l' => x :: filter (fun y => negb (String.eqb y x)) (first_seen l')
  end.

(** The last KPI written under the name [n]. *)
Fixpoint last_write (n : string) (l : list NbpKPI) : option NbpKPI :=
  match l with
  | [] => None
  | k :: l' =>
      match last_write n l' with
      | Some k' => Some k'
      | None => if String.eqb (name k) n then Some k else None
      end
  end.

(** The answer of the table for a name whose last write is [o]. *)
Definition lookup_result (n : string) (o : option NbpKPI) : res NbpKPI :=
  match o with
  | Some k => Ok k
  | None => Raise (KeyError n)
  end.

(** The table entries of the names [ns] under a lookup [g]. *)
Definition entries (g : string -> option NbpKPI) (ns : list string) : dict :=
  flat_map (fun n => match g n with Some k => [(n, k)] | None => [] end) ns.

(** The last-write-wins merge by name: one entry per name, in first-seen
    order, holding the last KPI written under that name. *)
Definition lww_merge (l : list NbpKPI) : dict :=
  entries (fun n => last_write n l) (first_seen (map name l)).

(** [self] holds what a fresh tracker holds after absorbing the KPIs [l]
    in order. *)
Definition tracks (l : list NbpKPI) (self : BasePyNBP) : Prop :=
  updatelist self = first_seen (map name l) /\
  dict_keys (kpis self) = first_seen (map name l) /\
  forall n, dict_get (kpis self) n = lookup_result n (last_write n l).

(** What the loops maintain about [self]: every pending name is a key of
    the table, every entry is filed under its KPI's name, and no key or
    pending name is repeated. *)
Definition tracker_inv (self : BasePyNBP) : Prop :=
  (forall n, In n (updatelist self) -> In n (dict_keys (kpis self))) /\
  (forall k v, In (k, v) (kpis self) -> name v = k) /\
  NoDup (dict_keys (kpis self)) /\
  NoDup (updatelist self).

(** *** The wire format *)

Section WireFormat.

Variable float_repr : float -> string.

(** [*<protocol_version>,<kind>,<timestamp>] and a newline. *)
Definition header (pv kind : string) (ts : float) : string :=
  "*" ++ pv ++ "," ++ kind ++ "," ++ format_6f ts ++ nl.

(** One body line. *)
Definition kpi_line (k : NbpKPI) : string :=
  if String.eqb (unit k) EmptyString
  then dq ++ name k ++ dq ++ ":" ++ str_num float_repr (value k) ++ nl
  else dq ++ name k ++ dq ++ "," ++ dq ++ unit k ++ dq ++ ":"
          ++ str_num float_repr (value k) ++ nl.

(** One line per selected KPI. *)
Definition body (sel : list NbpKPI) : string :=
  String.concat EmptyString (map kpi_line sel).

Definition footer : string := "#" ++ nl ++ nl.

(** The text of a whole ALL or UPDATE packet, and its bytes. *)
Definition packet_text (self : BasePyNBP) (kind : string)
    (sel : list NbpKPI) : string :=
  header (protocol_version self) kind (packettime self) ++ body sel ++ footer.

Definition packet_bytes (self : BasePyNBP) (kind : string)
    (sel : list NbpKPI) : bytes :=
  list_ascii_of_string (packet_text self kind sel).

(** The KPIs named by [ns], in the order of [ns]. *)
Definition named_by (d : dict) (ns : list string) (sel : list NbpKPI) : Prop :=
  Forall2 (fun n k => dict_get d n = Ok k) ns sel.

(** The selection of section 4.1: UPDATE with a non-empty pending list
    selects the pending KPIs in pending order; ALL, and UPDATE with an
    empty pending list, select every KPI in table order. *)
Definition selects (self : BasePyNBP) (kind : string)
    (sel : list NbpKPI) : Prop :=
  if String.eqb kind "UPDATE"
     && match updatelist self with [] => false | _ :: _ => true end
  then named_by (kpis self) (updatelist self) sel
  else sel = dict_values (kpis self).

End WireFormat.

(** *** Text that can be encoded *)

(** The text holds a lone surrogate: somewhere the byte 237 (0xED) is
    followed by a byte between 160 and 191 (0xA0 to 0xBF). *)
Definition holds_surrogate (text : string) : Prop :=
  exists pre b rest,
    list_ascii_of_string text = pre ++ "237"%char :: b :: rest /\
    (160 <= N_of_ascii b <= 191)%N.

Definition encodable (text : string) : Prop := ~ holds_surrogate text.

(** *** What the packet must say, in the words of the protocol *)

(** The line feed and the double quote, by their codes. *)
Definition LF : string := String (ascii_of_nat 10) EmptyString.
Definition QUOTE : string := String (ascii_of_nat 34) EmptyString.

(** [sel] holds the KPI of every entry of the table, in the table's
    order. *)
Definition table_order (d : dict) (sel : list NbpKPI) : Prop :=
  Forall2 (fun entry k => k = snd entry) d sel.

(** [sel] holds, for each name of [ns] in turn, the KPI that the table
    files under that name: the first entry with that key. *)
Definition pending_order (d : dict) (ns : list string) (sel : list NbpKPI)
    : Prop :=
  Forall2 (fun n k =>
             exists before after,
               d = before ++ (n, k) :: after /\ ~ In n (map fst before))
          ns sel.

(** [t] is the decimal numeral of [z]: the digits of [|z|] without a
    leading zero, after a minus sign when [z] is negative. *)
Definition decimal_numeral (z : Z) (t : string) : Prop :=
  NilZero.int_of_string t = Some (Z.to_int z).

(** The value of a decimal digit. *)
Definition digit_value (c : ascii) : option Z :=
  let n := N_of_ascii c in
  if (48 <=? n)%N && (n <=? 57)%N then Some (Z.of_N n - 48)%Z else None.

(** The number that a string of decimal digits denotes. *)
Fixpoint digits_value_from (acc : Z) (s : string) : option Z :=
  match s with
  | EmptyString => Some acc
  | String c s' =>
      match digit_value c with
      | Some d => digits_value_from (10 * acc + d)%Z s'
      | None => None
      end
  end.

Definition digits_value (s : string) : option Z := digits_value_from 0 s.

(** [n] is [m * 2^e * 10^6] rounded to the nearest integer, a tie going
    to the even one. *)
Definition nearest_millionths (m : positive) (e : Z) (n : Z) : Prop :=
  if (0 <=? e)%Z then n = (Zpos m * 2 ^ e * 1000000)%Z
  else
    (Z.abs (2 * (n * 2 ^ (- e) - Zpos m * 1000000)) <= 2 ^ (- e))%Z /\
    (Z.abs (2 * (n * 2 ^ (- e) - Zpos m * 1000000)) = 2 ^ (- e) ->
     Z.even n = true)%Z.

(** [t] is the timestamp [x] written with six decimals: the sign, the
    integer part as a decimal numeral, a point, and six digits, which
    together count the millionths nearest to [|x|]. *)
Definition timestamp_text (x : float) (t : string) : Prop :=
  match x with
  | S754_zero s => t = ((if s then "-" else EmptyString) ++ "0.000000")%string
  | S754_finite s m e =>
      exists (ip fp : string) (n : Z),
        t = ((if s then "-" else EmptyString) ++ ip ++ "." ++ fp)%string /\
        String.length fp = 6 /\
        nearest_millionths m e n /\
        decimal_numeral (n / 1000000) ip /\
        digits_value fp = Some (n mod 1000000)%Z
  | S754_infinity s => t = ((if s then "-" else EmptyString) ++ "inf")%string
  | S754_nan => t = "nan"
  end.

(** [t] is the text of the value [v]: the decimal numeral of an [int],
    the interpreter's [str] of a [float]. *)
Definition value_text (float_repr : float -> string) (v : num) (t : string)
    : Prop :=
  match v with
  | PyInt z => decimal_numeral z t
  | PyFloat f => t = float_repr f
  end.

(** [line] is the line of the KPI [k]: the quoted name, the quoted unit
    after a comma when there is one, a colon, the value, a line feed. *)
Definition line_of (float_repr : float -> string) (k : NbpKPI)
    (line : string) : Prop :=
  exists t,
    value_text float_repr (value k) t /\
    line = (if String.eqb (unit k) EmptyString
            then QUOTE ++ name k ++ QUOTE ++ ":" ++ t ++ LF
            else QUOTE ++ name k ++ QUOTE ++ "," ++ QUOTE ++ unit k ++ QUOTE
                       ++ ":" ++ t ++ LF)%string.


(** The KPIs that a packet of kind [kind] must carry: those named in the
    pending list, in its order, for UPDATE with a non-empty pending list;
    every KPI of the table in table order otherwise. *)
Definition selected (self : BasePyNBP) (kind : string) (sel : list NbpKPI)
    : Prop :=
  match updatelist self with
  | _ :: _ =>
      if String.eqb kind "ALL" then table_order (kpis self) sel
      else pending_order (kpis self) (updatelist self) sel
  | [] => table_order (kpis self) sel
  end.

(** Zero or a finite non-zero number, as opposed to an infinity or NaN. *)
Definition is_finite (x : float) : bool :=
  match x with
  | S754_zero _ | S754_finite _ _ _ => true
  | _ => false
  end.

(** A decimal digit. *)
Definition is_digit (c : ascii) : bool :=
  (48 <=? N_of_ascii c)%N && (N_of_ascii c <=? 57)%N.

(** A text with exactly six digits after its decimal point. *)
Definition six_decimals (s : string) : Prop :=
  exists ip fp : string,
    s = (ip ++ "." ++ fp)%string /\
    String.length fp = 6 /\
    forallb is_digit (list_ascii_of_string fp) = true.

(** A log line, as opposed to a transport operation. *)
Definition is_log (ev : event) : bool :=
  match ev with
  | LogMessage _ | LogText _ | LogPacket _ => true
  | _ => false
  end.

(** *** Readings of the claims about the loops *)



(** The client's data is the request token. *)
Definition requests_all (env : WifiEnv) : Prop :=
  exists data decoded,
    w_recv env = Ok data /\
    utf8_decode data = Ok decoded /\
    strip decoded = codepoints "!ALL".



(** The same environment with another answer to [conn.recv]. *)
Definition with_recv (env : WifiEnv) (r : res bytes) : WifiEnv :=
  mkWifiEnv (w_get env) (w_accept env) r (w_send_reply env)
            (w_time_gate env) (w_sendall env) (w_time_sent env).

(** ** Worked examples *)

Module Example.

(** The integer [z] as a float. *)
Definition of_Z (z : Z) : float := binary_normalize prec emax z 0 false.

(** The float literal [n / 10^k]: the quotient correctly rounded. *)
Definition decimal (n : Z) (k : Z) : float :=
  SFdiv prec emax (of_Z n) (of_Z (10 ^ k)).

(** The KPIs of the examples hold [int] values only, so that the
    formatter of floats is never called; it is fixed to the empty text. *)
Definition float_repr (x : float) : string := EmptyString.

Definition rpm_4500 : NbpKPI := mkKPI "RPM" "rpm" (PyInt 4500).
Definition rpm_4600 : NbpKPI := mkKPI "RPM" "rpm" (PyInt 4600).
Definition gear_3 : NbpKPI := mkKPI "GEAR" EmptyString (PyInt 3).

(** [PyNBP(queue)] and [WifiPyNBP(queue)] with the default arguments. *)
Definition fresh : BasePyNBP := init "PyNBP" "NBP1" (decimal 2 1).

(** A broadcaster that has absorbed RPM and GEAR and has RPM pending. *)
Definition warm : BasePyNBP :=
  mkBase "PyNBP" "NBP1" (of_Z 990) (of_Z 990)
         [("RPM", rpm_4500); ("GEAR", gear_3)] ["RPM"] (decimal 2 1).

Definition update (t : float) (ks : list NbpKPI) : NbpPayload :=
  mkPayload t "UPDATE" ks.

(** The request of the client, with its newline. *)
Definition request_all : bytes := list_ascii_of_string ("!ALL" ++ nl).

(** A serial iteration at time [t]: the open succeeds when consulted, no
    inbound bytes, the write succeeds. *)
Definition serial_at (t : float) (p : NbpPayload) : SerialEnv :=
  mkSerialEnv p (Ok tt) (Ok 0%Z) (Ok []) t (Ok tt) t.

(** A socket iteration at time [t]: the accept succeeds when consulted,
    the client has sent nothing, the send succeeds. *)
Definition wifi_at (t : float) (p : NbpPayload) : WifiEnv :=
  mkWifiEnv p (Ok "('127.0.0.1', 50000)") (Raise BlockingIOError) (Ok tt)
            t (Ok tt) t.

(** Three payloads: at 1000 s, 0.05 s later, and 0.25 s after the first. *)
Definition p1 : NbpPayload := update (of_Z 1000) [rpm_4500].
Definition p2 : NbpPayload := update (decimal 100005 2) [rpm_4600].
Definition p3 : NbpPayload := update (decimal 100025 2) [gear_3].

(** The serial device cannot be opened. *)
Definition serial_no_device : SerialEnv :=
  mkSerialEnv p1 (Raise SerialException) (Ok 0%Z) (Ok []) (of_Z 1000)
              (Ok tt) (of_Z 1000).

(** A payload whose kind is none of the three. *)
Definition bogus : NbpPayload := mkPayload (of_Z 1000) "BOGUS" [rpm_4600].


(** The client asks for everything 0.05 s after an emission at 990 s. *)
Definition wifi_request : WifiEnv :=
  mkWifiEnv (update (decimal 99005 2) [rpm_4600])
            (Ok "('127.0.0.1', 50000)") (Ok request_all) (Ok tt)
            (decimal 99005 2) (Ok tt) (decimal 99005 2).

(** No client is waiting, and the send fails if it is reached. *)
Definition wifi_broken_pipe : WifiEnv :=
  mkWifiEnv p1 (Raise socket_timeout) (Raise BlockingIOError) (Ok tt)
            (of_Z 1000) (Raise BrokenPipeError) (of_Z 1000).


(** The [str] that holds the lone surrogate U+D800. *)
Definition surrogate : string :=
  String "237"%char (String "160"%char (String "128"%char EmptyString)).




(** A METADATA payload that carries a changed KPI, and the UPDATE payload
    that follows it a second later. *)
Definition meta : NbpPayload := mkPayload (of_Z 1000) "METADATA" [rpm_4600].
Definition after_meta : NbpPayload := update (of_Z 1001) [gear_3].

End Example.

(** ** The two broadcasters, from construction to [run] *)

(** A keyword argument: the value given, or the default of the signature. *)
Definition kwarg {A : Type} (given : option A) (default : A) : A :=
  match given with Some a => a | None => default end.



(** A [WifiPyNBP] object: the fields of the base class, [self._ip] and
    [self._port]. *)
Record WifiPyNBP : Type := mkWifiPyNBP {
  wifi_base : BasePyNBP;
  _ip : string;
  _port : Z
}.

(** [WifiPyNBP.__init__] *)
Definition WifiPyNBP_init (ip : option string) (port : option Z)
    (device_name protocol_version : option string)
    (min_update_interval : option float) : WifiPyNBP :=
  mkWifiPyNBP (init (kwarg device_name "PyNBP") (kwarg protocol_version "NBP1")
                    (kwarg min_update_interval (Example.decimal 2 1)))
              (kwarg ip "127.0.0.1") (kwarg port 35000%Z).

(** The answers of the operating system to lines 161-165, before the
    loop; [sock.settimeout(1.0)] on a new socket does not raise. *)
Record WifiSetup : Type := mkWifiSetup {
  w_socket : res Datatypes.unit;        (* [socket.socket(...)] *)
  w_bind : res Datatypes.unit;          (* [sock.bind((ip, port))] *)
  w_listen : res Datatypes.unit         (* [sock.listen(1)] *)
}.

(** The events [tr0] happened before those of [o]. *)
Definition after_events {S} (tr0 : list event) (o : outcome S) : outcome S :=
  match o with
  | Next st tr => Next st (tr0 ++ tr)
  | Escape e st tr => Escape e st (tr0 ++ tr)
  end.

Section Broadcasters.

Variable float_repr : float -> string.


(** [WifiPyNBP.run]: lines 160-165 and the loop. *)
Definition WifiPyNBP_run (self : WifiPyNBP) (setup : WifiSetup)
    (envs : list WifiEnv) : outcome WifiState :=
  let st := wifi_start (wifi_base self) in
  match w_socket setup with
  | Raise e => Escape e st []
  | Ok _ =>
    let tr0 :=
      [LogMessage ("Binding to " ++ _ip self ++ ":" ++ str_int (_port self))] in
    match w_bind setup with
    | Raise e => Escape e st tr0
    | Ok _ =>
      match w_listen setup with
      | Raise e => Escape e st tr0
      | Ok _ => after_events tr0 (wifi_run float_repr st envs)
      end
    end
  end.

End Broadcasters.

(** *** Readings of further properties of the loops *)

(** The list [l] followed by the names of [ns] that it lacks, each once,
    in the order in which [ns] first shows them. *)
Definition extend (l ns : list string) : list string :=
  l ++ filter (fun n => negb (str_in n l)) (first_seen ns).

(** The regular emissions attempted by an iteration: none, or the one
    packet of the payload's kind, with the gate open. *)
Definition attempts_ok (float_repr : float -> string) (self : BasePyNBP)
    (kind : string) (now : float) (attempts : list bytes) : Prop :=
  attempts = [] \/
  (gate_closed self now = false /\
   exists pkt, _genpacket float_repr self kind = Ok pkt /\ attempts = [pkt]).

(** The configuration of [self0] is kept, and the keys of its table are
    kept, in order, at the front. *)
Definition keeps (self0 self : BasePyNBP) : Prop :=
  device_name self = device_name self0 /\
  protocol_version self = protocol_version self0 /\
  min_update_interval self = min_update_interval self0 /\
  exists more, dict_keys (kpis self) = dict_keys (kpis self0) ++ more.

(** Transport operations that carry a packet to the peer. *)
Definition is_send (ev : event) : bool :=
  match ev with
  | SerialWrite _ _ | SendReply _ _ | SendPacket _ _ => true
  | _ => false
  end.

(** No client is waiting: [sock.accept()] times out. *)
Definition accept_times_out (env : WifiEnv) : Prop :=
  w_accept env = Raise socket_timeout.

(** The device cannot be opened: [serial.serial_for_url] raises
    [SerialException] or a subclass of it. *)
Definition open_fails (env : SerialEnv) : Prop :=
  exists e, s_open env = Raise e /\ is_SerialException e = true.

(** An ASCII byte for which [str.isspace] holds once decoded. *)
Definition is_ascii_space (b : ascii) : bool :=
  (byte_val b <? 128)%N && isspace (byte_val b).

(** * Properties *)

(** ** Strings and membership *)

Lemma str_in_In (x : string) (l : list string) :
  str_in x l = true <-> In x l.
Proof.
  unfold str_in. rewrite existsb_exists. split.
  - intros [y [Hy Heq]]. apply String.eqb_eq in Heq. now subst.
  - intros H. exists x. split; [assumption | apply String.eqb_refl].
Qed.

Lemma str_in_not_In (x : string) (l : list string) :
  str_in x l = false <-> ~ In x l.
Proof.
  rewrite <- str_in_In. destruct (str_in x l); split; congruence.
Qed.

Lemma str_in_app (x : string) (l1 l2 : list string) :
  str_in x (l1 ++ l2) = str_in x l1 || str_in x l2.
Proof. unfold str_in. apply existsb_app. Qed.

Tactic Notation "eqb_cases" constr(a) constr(b) :=
  let E := fresh "E" in
  destruct (String.eqb_spec a b) as [E | E]; [try subst | idtac].

(** ** The dict *)

Lemma dict_keys_set (d : dict) (x : string) (v : NbpKPI) :
  dict_keys (dict_set d x v) =
  if str_in x (dict_keys d) then dict_keys d else dict_keys d ++ [x].
Proof.
  induction d as [| [k' v'] d IH]; simpl; [reflexivity |].
  rewrite (String.eqb_sym x k').
  eqb_cases k' x; simpl; [reflexivity |].
  rewrite IH. now destruct (str_in x (dict_keys d)).
Qed.

Lemma dict_get_set (d : dict) (x n : string) (v : NbpKPI) :
  dict_get (dict_set d x v) n =
  if String.eqb x n then Ok v else dict_get d n.
Proof.
  induction d as [| [k' v'] d IH]; simpl; [reflexivity |].
  eqb_cases k' x; simpl.
  - now destruct (String.eqb x n).
  - rewrite IH. destruct (String.eqb_spec k' n) as [Hn | Hn]; [| reflexivity].
    destruct (String.eqb_spec x n); [congruence | reflexivity].
Qed.


Lemma dict_get_not_In_keys (d : dict) (n : string) :
  ~ In n (dict_keys d) -> dict_get d n = Raise (KeyError n).
Proof.
  induction d as [| [k' v'] d IH]; simpl; [reflexivity |].
  intros H. eqb_cases k' n; [tauto | apply IH; tauto].
Qed.


Lemma dict_set_In (d : dict) (x : string) (v : NbpKPI) (k : string)
    (w : NbpKPI) :
  In (k, w) (dict_set d x v) -> (k, w) = (x, v) \/ In (k, w) d.
Proof.
  induction d as [| [k' v'] d IH]; simpl.
  - intros [H | []]. left. now symmetry.
  - eqb_cases k' x; simpl.
    + intros [H | H]; [left; now symmetry | right; now right].
    + intros [H | H]; [right; now left |].
      destruct (IH H); [now left | right; now right].
Qed.

(** Two dicts with the same distinct keys and the same lookups are the
    same dict. *)
Lemma dict_ext (d1 d2 : dict) :
  NoDup (dict_keys d1) ->
  dict_keys d1 = dict_keys d2 ->
  (forall n, In n (dict_keys d1) -> dict_get d1 n = dict_get d2 n) ->
  d1 = d2.
Proof.
  revert d2. induction d1 as [| [k1 v1] d1 IH]; intros [| [k2 v2] d2];
    simpl; try discriminate; [reflexivity |].
  intros Hnd [= <- Hk] Hget. inversion_clear Hnd as [| ? ? Hnotin Hnd'].
  pose proof (Hget k1 (or_introl eq_refl)) as H1.
  rewrite !String.eqb_refl in H1. injection H1 as <-.
  f_equal. apply IH; [assumption | assumption |].
  intros n Hn. specialize (Hget n (or_intror Hn)).
  eqb_cases k1 n; [contradiction | assumption].
Qed.

(** ** First-seen order and last writes *)

Lemma In_first_seen (x : string) (l : list string) :
  In x (first_seen l) <-> In x l.
Proof.
  induction l as [| a l IH]; simpl; [tauto |].
  rewrite filter_In, IH. split.
  - intros [H | [H _]]; auto.
  - intros [H | H]; [now left |].
    eqb_cases x a; [now left | right; split; auto].
Qed.

Lemma str_in_first_seen (x : string) (l : list string) :
  str_in x (first_seen l) = str_in x l.
Proof.
  destruct (str_in x l) eqn:E.
  - apply str_in_In, In_first_seen, str_in_In, E.
  - apply str_in_not_In. rewrite In_first_seen. now apply str_in_not_In.
Qed.

Lemma NoDup_first_seen (l : list string) : NoDup (first_seen l).
Proof.
  induction l as [| a l IH]; simpl; constructor.
  - rewrite filter_In. intros [_ H]. now rewrite String.eqb_refl in H.
  - now apply NoDup_filter.
Qed.

Lemma first_seen_snoc (l : list string) (x : string) :
  first_seen (l ++ [x]) =
  if str_in x l then first_seen l else first_seen l ++ [x].
Proof.
  induction l as [| a l IH]; simpl; [reflexivity |].
  rewrite IH. eqb_cases x a; simpl.
  - destruct (str_in a l); [reflexivity |].
    rewrite filter_app. simpl. rewrite String.eqb_refl. simpl.
    now rewrite app_nil_r.
  - destruct (str_in x l); [reflexivity |].
    rewrite filter_app. simpl.
    destruct (String.eqb_spec x a); [contradiction | reflexivity].
Qed.

Lemma last_write_snoc (n : string) (l : list NbpKPI) (k : NbpKPI) :
  last_write n (l ++ [k]) =
  if String.eqb (name k) n then Some k else last_write n l.
Proof.
  induction l as [| a l IH]; simpl.
  - reflexivity.
  - rewrite IH. now destruct (String.eqb (name k) n).
Qed.

Lemma last_write_name (n : string) (l : list NbpKPI) (k : NbpKPI) :
  last_write n l = Some k -> name k = n /\ In k l.
Proof.
  induction l as [| a l IH]; simpl; [discriminate |].
  destruct (last_write n l) as [k' |].
  - intros [= ->]. destruct (IH eq_refl). auto.
  - eqb_cases (name a) n; [intros [= ->]; auto | discriminate].
Qed.

Lemma last_write_In (n : string) (l : list NbpKPI) :
  In n (map name l) -> exists k, last_write n l = Some k.
Proof.
  induction l as [| a l IH]; simpl; [tauto |].
  intros H. destruct (last_write n l) as [k' |]; [eauto |].
  eqb_cases (name a) n; [eauto |].
  destruct H as [H | H]; [contradiction |].
  destruct (IH H) as [k Hk]. discriminate.
Qed.

Lemma last_write_not_In (n : string) (l : list NbpKPI) :
  ~ In n (map name l) -> last_write n l = None.
Proof.
  intros H. destruct (last_write n l) as [k |] eqn:E; [| reflexivity].
  apply last_write_name in E as [<- Hin]. exfalso. apply H.
  now apply in_map.
Qed.

(** ** The last-write-wins merge *)

Lemma dict_keys_entries (g : string -> option NbpKPI) (ns : list string) :
  (forall n, In n ns -> g n <> None) ->
  dict_keys (entries g ns) = ns.
Proof.
  unfold entries, dict_keys. induction ns as [| a ns IH]; simpl; intros H.
  - reflexivity.
  - rewrite map_app. destruct (g a) as [k |] eqn:E.
    + simpl. f_equal. apply IH. intros n Hn. apply H. now right.
    + exfalso. apply (H a); [now left | assumption].
Qed.

Lemma dict_get_entries (g : string -> option NbpKPI) (ns : list string)
    (n : string) :
  dict_get (entries g ns) n =
  if str_in n ns then lookup_result n (g n) else Raise (KeyError n).
Proof.
  unfold entries. induction ns as [| a ns IH]; simpl; [reflexivity |].
  destruct (g a) as [k |] eqn:E; simpl.
  - rewrite (String.eqb_sym n a).
    destruct (String.eqb_spec a n) as [-> | Hne]; simpl.
    + now rewrite E.
    + apply IH.
  - rewrite IH. destruct (String.eqb_spec n a) as [-> | Hne]; simpl.
    + rewrite E. simpl. now destruct (str_in a ns).
    + reflexivity.
Qed.

Lemma dict_keys_lww_merge (l : list NbpKPI) :
  dict_keys (lww_merge l) = first_seen (map name l).
Proof.
  unfold lww_merge. apply dict_keys_entries.
  intros n Hn. apply (proj1 (In_first_seen n (map name l))) in Hn.
  destruct (last_write_In n l Hn) as [k ->]. discriminate.
Qed.

Lemma dict_get_lww_merge (l : list NbpKPI) (n : string) :
  dict_get (lww_merge l) n = lookup_result n (last_write n l).
Proof.
  unfold lww_merge. rewrite dict_get_entries, str_in_first_seen.
  destruct (str_in n (map name l)) eqn:E; [reflexivity |].
  apply str_in_not_In in E. now rewrite (last_write_not_In n l E).
Qed.

(** ** The state tracker *)

Lemma updatelist_merge_kpi (self : BasePyNBP) (k : NbpKPI) :
  updatelist (merge_kpi self k) =
  if str_in (name k) (updatelist self)
  then updatelist self else updatelist self ++ [name k].
Proof.
  unfold merge_kpi. now destruct (str_in (name k) (updatelist self)).
Qed.

Lemma kpis_merge_kpi (self : BasePyNBP) (k : NbpKPI) :
  kpis (merge_kpi self k) = dict_set (kpis self) (name k) k.
Proof.
  unfold merge_kpi. now destruct (str_in (name k) (updatelist self)).
Qed.

Lemma frame_merge_kpi (self : BasePyNBP) (k : NbpKPI) :
  device_name (merge_kpi self k) = device_name self /\
  protocol_version (merge_kpi self k) = protocol_version self /\
  last_update_time (merge_kpi self k) = last_update_time self /\
  packettime (merge_kpi self k) = packettime self /\
  min_update_interval (merge_kpi self k) = min_update_interval self.
Proof.
  unfold merge_kpi. now destruct (str_in (name k) (updatelist self)).
Qed.

Lemma frame_merge_all (ks : list NbpKPI) (self : BasePyNBP) :
  device_name (fold_left merge_kpi ks self) = device_name self /\
  protocol_version (fold_left merge_kpi ks self) = protocol_version self /\
  last_update_time (fold_left merge_kpi ks self) = last_update_time self /\
  packettime (fold_left merge_kpi ks self) = packettime self /\
  min_update_interval (fold_left merge_kpi ks self) = min_update_interval self.
Proof.
  revert self. induction ks as [| k ks IH]; intros self; simpl.
  - repeat split.
  - destruct (IH (merge_kpi self k)) as (-> & -> & -> & -> & ->).
    apply frame_merge_kpi.
Qed.

Lemma frame_absorb_payload (self : BasePyNBP) (p : NbpPayload) :
  device_name (absorb_payload self p) = device_name self /\
  protocol_version (absorb_payload self p) = protocol_version self /\
  last_update_time (absorb_payload self p) = last_update_time self /\
  packettime (absorb_payload self p) = timestamp p /\
  min_update_interval (absorb_payload self p) = min_update_interval self.
Proof.
  unfold absorb_payload.
  destruct (frame_merge_all (nbpkpilist p) (set_packettime self (timestamp p)))
    as (-> & -> & -> & -> & ->).
  repeat split.
Qed.

Lemma tracks_merge_kpi (l : list NbpKPI) (self : BasePyNBP) (k : NbpKPI) :
  tracks l self -> tracks (l ++ [k]) (merge_kpi self k).
Proof.
  intros (Hu & Hk & Hg). unfold tracks.
  rewrite updatelist_merge_kpi, kpis_merge_kpi, dict_keys_set.
  rewrite Hu, Hk, map_app. simpl. rewrite first_seen_snoc.
  rewrite str_in_first_seen. repeat split.
  intros n. rewrite dict_get_set, last_write_snoc, Hg.
  now destruct (String.eqb (name k) n).
Qed.

Lemma tracks_merge_all (ks l : list NbpKPI) (self : BasePyNBP) :
  tracks l self -> tracks (l ++ ks) (fold_left merge_kpi ks self).
Proof.
  revert l self. induction ks as [| k ks IH]; intros l self H; simpl.
  - now rewrite app_nil_r.
  - replace (l ++ k :: ks) with ((l ++ [k]) ++ ks)
      by (now rewrite <- app_assoc).
    apply IH. now apply tracks_merge_kpi.
Qed.

Lemma tracks_absorb_payload (l : list NbpKPI) (self : BasePyNBP)
    (p : NbpPayload) :
  tracks l self -> tracks (l ++ nbpkpilist p) (absorb_payload self p).
Proof.
  intros H. unfold absorb_payload. apply tracks_merge_all. exact H.
Qed.

Lemma tracks_absorb_all (ps : list NbpPayload) (l : list NbpKPI)
    (self : BasePyNBP) :
  tracks l self -> tracks (l ++ all_kpis ps) (absorb_all self ps).
Proof.
  unfold absorb_all, all_kpis.
  revert l self. induction ps as [| p ps IH]; intros l self H; simpl.
  - now rewrite app_nil_r.
  - rewrite app_assoc. apply IH. now apply tracks_absorb_payload.
Qed.

Lemma last_cons {A} (l : list A) (a d : A) : last (a :: l) d = last l a.
Proof.
  revert a d. induction l as [| b l IH]; intros a d; [reflexivity |].
  change (last (a :: b :: l) d) with (last (b :: l) d).
  now rewrite (IH b d), (IH b a).
Qed.

Lemma packettime_absorb_all (ps : list NbpPayload) (self : BasePyNBP) :
  packettime (absorb_all self ps) = last (map timestamp ps) (packettime self).
Proof.
  unfold absorb_all. revert self.
  induction ps as [| p ps IH]; intros self; [reflexivity |].
  cbn [fold_left]. rewrite IH.
  destruct (frame_absorb_payload self p) as (_ & _ & _ & Hp & _).
  rewrite Hp. cbn [map]. now rewrite last_cons.
Qed.

(** C1: payloads applied in order to a freshly initialised broadcaster
    leave [kpis] equal to the last-write-wins merge by name of all their
    KPIs (one entry per name, in first-seen order, holding the last KPI
    written under the name), [updatelist] equal to the names in first-seen
    order, each exactly once, and [packettime] equal to the timestamp of
    the last payload (the initial 0 when there is none). *)
Theorem absorb_all_fresh (dn pv : string) (mui : float)
    (ps : list NbpPayload) :
  let final := absorb_all (init dn pv mui) ps in
  let all := all_kpis ps in
  kpis final = lww_merge all /\
  (forall n, dict_get (kpis final) n = lookup_result n (last_write n all)) /\
  updatelist final = first_seen (map name all) /\
  NoDup (updatelist final) /\
  (forall n, In n (updatelist final) <-> In n (map name all)) /\
  packettime final = last (map timestamp ps) fzero.
Proof.
  intros final all.
  assert (Ht : tracks all final).
  { apply (tracks_absorb_all ps [] (init dn pv mui)).
    repeat split. }
  destruct Ht as (Hu & Hk & Hg).
  split; [| split; [| split; [| split; [| split]]]].
  - apply dict_ext.
    + rewrite Hk. apply NoDup_first_seen.
    + now rewrite Hk, dict_keys_lww_merge.
    + intros n _. now rewrite Hg, dict_get_lww_merge.
  - exact Hg.
  - exact Hu.
  - rewrite Hu. apply NoDup_first_seen.
  - intros n. rewrite Hu. apply In_first_seen.
  - apply (packettime_absorb_all ps (init dn pv mui)).
Qed.

(** ** The packet encoder *)

Lemma append_assoc (a b c : string) : ((a ++ b) ++ c = a ++ (b ++ c))%string.
Proof. induction a as [| ch a IH]; simpl; [reflexivity | now rewrite IH]. Qed.

Lemma append_nil_r (a : string) : (a ++ EmptyString)%string = a.
Proof. induction a as [| ch a IH]; simpl; [reflexivity | now rewrite IH]. Qed.

(** *** [str.encode] *)

Lemma has_surrogate_spec (text : bytes) :
  has_surrogate text = true <->
  exists pre b rest,
    text = pre ++ "237"%char :: b :: rest /\
    (160 <= N_of_ascii b <= 191)%N.
Proof.
  induction text as [| b0 text IH]; cbn [has_surrogate].
  - split; [discriminate |]. intros (pre & b & rest & H & _).
    now destruct pre.
  - rewrite orb_true_iff, IH. split.
    + intros [H | (pre & b & rest & -> & Hb)].
      * destruct text as [| b1 text]; [discriminate |].
        apply andb_prop in H as [H H2]. apply andb_prop in H as [H0 H1].
        apply N.eqb_eq in H0. apply N.leb_le in H1, H2.
        exists [], b1, text. split; [| lia].
        cbn [app]. f_equal.
        rewrite <- (ascii_N_embedding b0), H0. reflexivity.
      * exists (b0 :: pre), b, rest. now split.
    + intros ([| p pre] & b & rest & H & Hb); injection H as -> ->.
      * left. cbn. apply andb_true_intro. split; apply N.leb_le; lia.
      * right. eauto.
Qed.

Lemma encodable_iff (text : string) :
  encodable text <-> has_surrogate (list_ascii_of_string text) = false.
Proof.
  unfold encodable, holds_surrogate. rewrite <- has_surrogate_spec.
  now destruct (has_surrogate (list_ascii_of_string text)).
Qed.

Lemma holds_surrogate_iff (text : string) :
  holds_surrogate text <-> has_surrogate (list_ascii_of_string text) = true.
Proof. unfold holds_surrogate. now rewrite has_surrogate_spec. Qed.

(** [str.encode] returns the bytes of an encodable text and raises
    [UnicodeEncodeError] on any other. *)
Lemma str_encode_encodable (text : string) :
  encodable text -> str_encode text = Ok (list_ascii_of_string text).
Proof. intros H. apply encodable_iff in H. unfold str_encode. now rewrite H. Qed.


Lemma str_encode_Ok (text : string) (data : bytes) :
  str_encode text = Ok data ->
  data = list_ascii_of_string text /\ encodable text.
Proof.
  unfold str_encode. intros H. rewrite encodable_iff.
  destruct (has_surrogate (list_ascii_of_string text)); [discriminate |].
  injection H as <-. now split.
Qed.

Lemma str_encode_Raise (text : string) (e : exn) :
  str_encode text = Raise e -> e = UnicodeEncodeError /\ holds_surrogate text.
Proof.
  unfold str_encode. intros H. rewrite holds_surrogate_iff.
  destruct (has_surrogate (list_ascii_of_string text)); [| discriminate].
  injection H as <-. now split.
Qed.

Section EncoderFacts.

Variable float_repr : float -> string.

Lemma add_line_kpi_line (packet : string) (k : NbpKPI) :
  add_line float_repr packet k = (packet ++ kpi_line float_repr k)%string.
Proof.
  unfold add_line, kpi_line.
  destruct (String.eqb (unit k) EmptyString); simpl;
    now rewrite ?append_assoc.
Qed.

(** The accumulation loop of lines 73-78 appends the body. *)
Lemma fold_add_line (sel : list NbpKPI) (packet : string) :
  fold_left (add_line float_repr) sel packet
  = (packet ++ body float_repr sel)%string.
Proof.
  unfold body. revert packet.
  induction sel as [| k sel IH]; intros packet; simpl.
  - now rewrite append_nil_r.
  - rewrite IH, add_line_kpi_line, append_assoc. f_equal.
    destruct sel as [| k' sel]; simpl; [now rewrite append_nil_r | reflexivity].
Qed.

Lemma lookup_all_named_by (d : dict) (ks : list string) (sel : list NbpKPI) :
  lookup_all d ks = Ok sel <-> named_by d ks sel.
Proof.
  unfold named_by. revert sel. induction ks as [| k ks IH]; intros sel; simpl.
  - split.
    + intros [= <-]. constructor.
    + intros H. inversion H. reflexivity.
  - split.
    + destruct (dict_get d k) as [v |] eqn:E; simpl; [| discriminate].
      destruct (lookup_all d ks) as [vs |] eqn:E'; simpl; [| discriminate].
      intros [= <-]. constructor; [assumption | now apply IH].
    + intros H. inversion H as [| ? v ? vs Hv Hvs]; subst.
      rewrite Hv. simpl. apply IH in Hvs. now rewrite Hvs.
Qed.



(** [_genpacket] on the two kinds that carry KPIs, in closed form. *)
Lemma genpacket_closed_form (self : BasePyNBP) (ptype : string) :
  ptype = "ALL" \/ ptype = "UPDATE" ->
  _genpacket float_repr self ptype =
  (sel <- (if String.eqb ptype "UPDATE"
              && match updatelist self with [] => false | _ :: _ => true end
           then lookup_all (kpis self) (updatelist self)
           else Ok (dict_values (kpis self))) ;;
   str_encode (packet_text float_repr self ptype sel)).
Proof.
  assert (Hin : forall k, k = "ALL" \/ k = "UPDATE" ->
            str_in k ["ALL"; "UPDATE"; "METADATA"] = true
            /\ String.eqb k "METADATA" = false
            /\ negb (String.eqb k "ALL") = String.eqb k "UPDATE").
  { intros k [-> | ->]; repeat split. }
  intros H. destruct (Hin ptype H) as (E1 & E2 & E3).
  unfold _genpacket, packet_text, header, footer.
  rewrite E1, E2, E3. cbn [negb].
  destruct (updatelist self) as [| n ns].
  - rewrite andb_false_r. cbn [bind].
    now rewrite fold_add_line, append_assoc.
  - rewrite andb_true_r.
    destruct (String.eqb ptype "UPDATE"); cbn [bind];
      [destruct (lookup_all (kpis self) (n :: ns)) as [sel |]; cbn [bind] |];
      now rewrite ?fold_add_line, ?append_assoc.
Qed.




(** The selection made by lines 68-71, as a relation. *)
Lemma genpacket_selects (self : BasePyNBP) (ptype : string)
    (sel : list NbpKPI) :
  selects self ptype sel <->
  (if String.eqb ptype "UPDATE"
      && match updatelist self with [] => false | _ :: _ => true end
   then lookup_all (kpis self) (updatelist self)
   else Ok (dict_values (kpis self))) = Ok sel.
Proof.
  unfold selects.
  destruct (String.eqb ptype "UPDATE"
            && match updatelist self with [] => false | _ :: _ => true end).
  - symmetry. apply lookup_all_named_by.
  - split; [now intros -> | now intros [= ->]].
Qed.

(** What [_genpacket] returns on the kinds that carry KPIs. *)
Lemma genpacket_Ok (self : BasePyNBP) (ptype : string) (pkt : bytes) :
  ptype = "ALL" \/ ptype = "UPDATE" ->
  _genpacket float_repr self ptype = Ok pkt <->
  exists sel,
    selects self ptype sel /\
    encodable (packet_text float_repr self ptype sel) /\
    pkt = packet_bytes float_repr self ptype sel.
Proof.
  intros Hk. rewrite genpacket_closed_form by exact Hk. split.
  - match goal with
    | |- bind ?c _ = _ -> _ => destruct c as [sel | e] eqn:Es
    end; cbn [bind]; [| discriminate].
    intros H. apply str_encode_Ok in H as [-> He].
    exists sel. split; [now apply genpacket_selects | now split].
  - intros (sel & Hs & He & ->). apply genpacket_selects in Hs.
    rewrite Hs. cbn [bind]. now apply str_encode_encodable.
Qed.


End EncoderFacts.

(** ** The timestamp rendering *)

Lemma digit_is_digit (d : Z) :
  (0 <= d < 10)%Z -> is_digit (digit d) = true.
Proof.
  intros H.
  assert (Hd : d = 0%Z \/ d = 1%Z \/ d = 2%Z \/ d = 3%Z \/ d = 4%Z \/
               d = 5%Z \/ d = 6%Z \/ d = 7%Z \/ d = 8%Z \/ d = 9%Z) by lia.
  repeat (destruct Hd as [-> | Hd]; [reflexivity |]). now subst.
Qed.

Lemma six_digits_shape (n : Z) :
  String.length (six_digits n) = 6 /\
  forallb is_digit (list_ascii_of_string (six_digits n)) = true.
Proof.
  split; [reflexivity |].
  unfold six_digits. cbn [list_ascii_of_string forallb].
  rewrite !digit_is_digit; [reflexivity | apply Z.mod_pos_bound; lia ..].
Qed.

(** A finite timestamp is rendered with exactly six decimals. *)
Lemma format_6f_six_decimals (x : float) :
  is_finite x = true -> six_decimals (format_6f x).
Proof.
  destruct x as [s | s | | s m e]; try discriminate; intros _.
  - exists (sign_text s ++ "0")%string, "000000".
    split; [destruct s; reflexivity | split; reflexivity].
  - exists (sign_text s ++ str_int (millionths m e / 1000000))%string,
           (six_digits (millionths m e mod 1000000)).
    destruct (six_digits_shape (millionths m e mod 1000000)) as [Hl Hd].
    split; [| split; [exact Hl | exact Hd]].
    unfold format_6f. now rewrite append_assoc.
Qed.

(** The rounding of [millionths] is to nearest: twice the distance between
    the value in millionths and the integer chosen is at most one. *)
Lemma round_half_even_nearest (num den : Z) :
  (0 < den)%Z ->
  (Z.abs (2 * (round_half_even num den * den - num)) <= den)%Z.
Proof.
  intros Hden. unfold round_half_even.
  pose proof (Z.div_mod num den ltac:(lia)) as Hdm.
  pose proof (Z.mod_pos_bound num den Hden) as Hb.
  destruct (Z.compare_spec (2 * (num mod den)) den) as [Hc | Hc | Hc];
    [destruct (Z.even (num / den)) | |]; nia.
Qed.

(** The rounding of [millionths] sends a tie to the even integer. *)
Lemma round_half_even_tie (num den : Z) :
  (0 < den)%Z ->
  (Z.abs (2 * (round_half_even num den * den - num)) = den)%Z ->
  Z.even (round_half_even num den) = true.
Proof.
  intros Hden. unfold round_half_even.
  pose proof (Z.div_mod num den ltac:(lia)) as Hdm.
  pose proof (Z.mod_pos_bound num den Hden) as Hb.
  destruct (Z.compare_spec (2 * (num mod den)) den) as [Hc | Hc | Hc].
  - destruct (Z.even (num / den)) eqn:Ee; intros _; [exact Ee |].
    rewrite Z.even_add, Ee. reflexivity.
  - intros H. exfalso. nia.
  - intros H. exfalso. nia.
Qed.

(** ** The packet against the words of the protocol *)

Lemma list_ascii_of_string_app (a b : string) :
  list_ascii_of_string (a ++ b)
  = list_ascii_of_string a ++ list_ascii_of_string b.
Proof. induction a as [| ch a IH]; cbn; [reflexivity | now rewrite IH]. Qed.

Lemma decimal_numeral_str_int (z : Z) : decimal_numeral z (str_int z).
Proof.
  unfold decimal_numeral, str_int. apply NilZero.isi.
  - destruct z as [| p | p]; cbn; try discriminate.
    intros [= H]. now apply Unsigned.to_uint_nonnil in H.
  - destruct z as [| p | p]; cbn; try discriminate.
    intros [= H]. now apply Unsigned.to_uint_nonnil in H.
Qed.

Lemma digit_value_digit (d : Z) :
  (0 <= d < 10)%Z -> digit_value (digit d) = Some d.
Proof.
  intros H.
  assert (Hd : d = 0%Z \/ d = 1%Z \/ d = 2%Z \/ d = 3%Z \/ d = 4%Z \/
               d = 5%Z \/ d = 6%Z \/ d = 7%Z \/ d = 8%Z \/ d = 9%Z) by lia.
  repeat (destruct Hd as [-> | Hd]; [reflexivity |]). now subst.
Qed.

Lemma digits_value_six_digits (r : Z) :
  (0 <= r < 1000000)%Z -> digits_value (six_digits r) = Some r.
Proof.
  intros Hr. unfold digits_value, six_digits. cbn [digits_value_from].
  rewrite !digit_value_digit by (apply Z.mod_pos_bound; lia).
  f_equal. Z.div_mod_to_equations. lia.
Qed.

Lemma nearest_millionths_millionths (m : positive) (e : Z) :
  nearest_millionths m e (millionths m e).
Proof.
  unfold nearest_millionths, millionths.
  destruct (0 <=? e)%Z eqn:E; [reflexivity |].
  apply Z.leb_gt in E.
  assert (Hden : (0 < 2 ^ (- e))%Z) by (apply Z.pow_pos_nonneg; lia).
  split.
  - now apply round_half_even_nearest.
  - now apply round_half_even_tie.
Qed.

(** [format_6f] writes the timestamp as the protocol asks. *)
Lemma timestamp_text_format_6f (x : float) : timestamp_text x (format_6f x).
Proof.
  destruct x as [s | s | | s m e]; cbn [timestamp_text format_6f];
    try reflexivity; try (now destruct s).
  exists (str_int (millionths m e / 1000000)),
         (six_digits (millionths m e mod 1000000)), (millionths m e).
  split; [now destruct s |]. split; [reflexivity |].
  split; [apply nearest_millionths_millionths |].
  split; [apply decimal_numeral_str_int |].
  apply digits_value_six_digits. apply Z.mod_pos_bound. lia.
Qed.

(** The table as a list of entries: lookup finds the first entry of a
    key. *)
Lemma dict_get_first_entry (d : dict) (n : string) (k : NbpKPI) :
  dict_get d n = Ok k <->
  exists before after,
    d = before ++ (n, k) :: after /\ ~ In n (map fst before).
Proof.
  induction d as [| [k' v'] d IH]; cbn [dict_get].
  - split; [discriminate |]. intros (before & after & H & _).
    now destruct before.
  - destruct (String.eqb_spec k' n) as [-> | Hne].
    + split.
      * intros [= ->]. exists [], d. split; [reflexivity | intros []].
      * intros ([| [k0 v0] before] & after & H & Hn); cbn in H, Hn;
          inversion H; subst; [reflexivity |].
        exfalso. apply Hn. now left.
    + rewrite IH. split.
      * intros (before & after & -> & Hn).
        exists ((k', v') :: before), after. split; [reflexivity |].
        cbn. intros [H | H]; [now apply Hne | now apply Hn].
      * intros ([| [k0 v0] before] & after & H & Hn); cbn in H, Hn;
          inversion H; subst; [now exfalso |].
        exists before, after. split; [reflexivity |].
        intros Hin. apply Hn. now right.
Qed.

Lemma table_order_dict_values (d : dict) : table_order d (dict_values d).
Proof.
  unfold table_order, dict_values.
  induction d as [| entry d IH]; cbn; constructor; [reflexivity | exact IH].
Qed.

Lemma named_by_pending_order (d : dict) (ns : list string)
    (sel : list NbpKPI) :
  named_by d ns sel -> pending_order d ns sel.
Proof.
  unfold named_by, pending_order. intros H.
  induction H as [| n k ns sel Hg _ IH]; constructor; [| exact IH].
  now apply dict_get_first_entry.
Qed.

Section WireFacts.

Variable float_repr : float -> string.

Lemma value_text_str_num (v : num) :
  value_text float_repr v (str_num float_repr v).
Proof. destruct v as [z | f]; [apply decimal_numeral_str_int | reflexivity]. Qed.

Lemma line_of_kpi_line (k : NbpKPI) :
  line_of float_repr k (kpi_line float_repr k).
Proof.
  exists (str_num float_repr (value k)).
  split; [apply value_text_str_num | reflexivity].
Qed.

Lemma lines_of_body (sel : list NbpKPI) :
  Forall2 (line_of float_repr) sel (map (kpi_line float_repr) sel).
Proof.
  induction sel as [| k sel IH]; cbn; constructor;
    [apply line_of_kpi_line | exact IH].
Qed.

Lemma packet_text_eq (self : BasePyNBP) (kind : string) (sel : list NbpKPI) :
  packet_text float_repr self kind sel
  = ("*" ++ protocol_version self ++ "," ++ kind ++ ","
         ++ format_6f (packettime self) ++ LF
         ++ String.concat EmptyString (map (kpi_line float_repr) sel)
         ++ "#" ++ LF ++ LF)%string.
Proof.
  unfold packet_text, header, body, footer. now rewrite !append_assoc.
Qed.


(** The selection of lines 68-71 is the selection of the protocol. *)
Lemma selects_selected (self : BasePyNBP) (kind : string)
    (sel : list NbpKPI) :
  kind = "ALL" \/ kind = "UPDATE" ->
  selects self kind sel -> selected self kind sel.
Proof.
  unfold selects, selected.
  intros [-> | ->]; cbn [String.eqb Ascii.eqb Bool.eqb andb].
  - intros ->. destruct (updatelist self); apply table_order_dict_values.
  - destruct (updatelist self) as [| n ns].
    + intros ->. apply table_order_dict_values.
    + apply named_by_pending_order.
Qed.

End WireFacts.

(** *** Where a lone surrogate can sit *)

Lemma has_surrogate_cons (b : ascii) (rest : bytes) :
  N_of_ascii b <> 237%N -> has_surrogate (b :: rest) = has_surrogate rest.
Proof.
  intros H. cbn [has_surrogate].
  destruct rest as [| b1 rest']; [reflexivity |].
  apply N.eqb_neq in H. now rewrite H.
Qed.

Lemma has_surrogate_unfold (b0 b1 : ascii) (rest : bytes) :
  has_surrogate (b0 :: b1 :: rest) =
  (N_of_ascii b0 =? 237)%N
  && (160 <=? N_of_ascii b1)%N && (N_of_ascii b1 <=? 191)%N
  || has_surrogate (b1 :: rest).
Proof. reflexivity. Qed.

(** A byte below 160 ends any surrogate before it. *)
Lemma has_surrogate_app (l : bytes) (c : ascii) (r : bytes) :
  (N_of_ascii c < 160)%N ->
  has_surrogate (l ++ c :: r) = has_surrogate l || has_surrogate (c :: r).
Proof.
  intros Hc. induction l as [| b0 l IH]; [reflexivity |].
  destruct l as [| b1 l].
  - cbn [app]. rewrite has_surrogate_unfold.
    apply N.leb_gt in Hc. rewrite Hc, andb_false_r. reflexivity.
  - change ((b0 :: b1 :: l) ++ c :: r) with (b0 :: b1 :: (l ++ c :: r)).
    change ((b1 :: l) ++ c :: r) with (b1 :: (l ++ c :: r)) in IH.
    rewrite !has_surrogate_unfold, IH.
    now rewrite !orb_assoc.
Qed.

(** The text between [@NAME:] and the two line feeds decides whether the
    metadata can be encoded. *)
Lemma metadata_encodable (dn : string) :
  has_surrogate (list_ascii_of_string ("@NAME:" ++ dn ++ nl ++ nl))
  = has_surrogate (list_ascii_of_string dn).
Proof.
  cbn [append list_ascii_of_string].
  rewrite !has_surrogate_cons by (cbn; discriminate).
  rewrite list_ascii_of_string_app.
  change (list_ascii_of_string (nl ++ nl)) with ["010"%char; "010"%char].
  rewrite has_surrogate_app by (cbn; lia).
  apply orb_false_r.
Qed.

(** The kind written in the header does not matter to whether the packet
    can be encoded. *)
Lemma header_kind_encodable (pv rest : string) :
  has_surrogate (list_ascii_of_string ("*" ++ pv ++ "," ++ "UPDATE" ++ rest))
  = has_surrogate (list_ascii_of_string ("*" ++ pv ++ "," ++ "ALL" ++ rest)).
Proof.
  cbn [append list_ascii_of_string].
  rewrite !(has_surrogate_cons "*") by (cbn; discriminate).
  rewrite !list_ascii_of_string_app.
  cbn [append list_ascii_of_string].
  rewrite !(has_surrogate_app _ ","%char) by (cbn; lia).
  reflexivity.
Qed.

(** ** Claims on the encoder *)



(** C3: whenever the encoder returns an UPDATE packet, with a non-empty
    pending list the packet carries the KPIs that the table files under
    the pending names, one per name and in the order of the list; with an
    empty pending list it carries the KPI of every entry of the table in
    table order, and the ALL packet of the same state has the same
    timestamp and the same lines. *)
Theorem update_selection (float_repr : float -> string) (self : BasePyNBP)
    (pkt : bytes) :
  _genpacket float_repr self "UPDATE" = Ok pkt ->
  exists (sel : list NbpKPI) (tst : string) (lines : list string),
    timestamp_text (packettime self) tst /\
    Forall2 (line_of float_repr) sel lines /\
    pkt = list_ascii_of_string
            ("*" ++ protocol_version self ++ "," ++ "UPDATE" ++ "," ++ tst
                 ++ LF ++ String.concat EmptyString lines
                 ++ "#" ++ LF ++ LF) /\
    match updatelist self with
    | _ :: _ => pending_order (kpis self) (updatelist self) sel
    | [] =>
        table_order (kpis self) sel /\
        _genpacket float_repr self "ALL"
        = Ok (list_ascii_of_string
                ("*" ++ protocol_version self ++ "," ++ "ALL" ++ "," ++ tst
                     ++ LF ++ String.concat EmptyString lines
                     ++ "#" ++ LF ++ LF))
    end.
Proof.
  intros H.
  apply genpacket_Ok in H as (sel & Hs & He & ->); [| now right].
  exists sel, (format_6f (packettime self)), (map (kpi_line float_repr) sel).
  split; [apply timestamp_text_format_6f |].
  split; [apply lines_of_body |].
  split; [unfold packet_bytes; now rewrite packet_text_eq |].
  pose proof (selects_selected self "UPDATE" sel (or_intror eq_refl) Hs)
    as Hsd.
  unfold selected in Hsd. cbn [String.eqb Ascii.eqb Bool.eqb] in Hsd.
  destruct (updatelist self) as [| n ns] eqn:Hu; [| exact Hsd].
  split; [exact Hsd |].
  assert (Hs' : selects self "ALL" sel).
  { unfold selects in *. rewrite Hu in *.
    cbn [String.eqb Ascii.eqb Bool.eqb andb] in *. exact Hs. }
  rewrite <- (packet_text_eq float_repr self "ALL" sel).
  apply genpacket_Ok; [now left |].
  exists sel. split; [exact Hs' |]. split; [| reflexivity].
  apply encodable_iff. apply encodable_iff in He.
  rewrite packet_text_eq in *. now rewrite <- header_kind_encodable.
Qed.

(** C9 as stated fails: with a device name that holds a lone surrogate
    [str.encode] raises [UnicodeEncodeError] and no packet is returned. *)
Lemma genpacket_metadata_surrogate :
  holds_surrogate Example.surrogate /\
  _genpacket Example.float_repr
    (init Example.surrogate "NBP1" (Example.decimal 2 1)) "METADATA"
  = Raise UnicodeEncodeError.
Proof.
  split; [| reflexivity].
  exists [], "160"%char, ["128"%char]. split; [reflexivity | cbn; lia].
Qed.

(** C9 (amended): for every device name that holds no lone surrogate,
    encoding a METADATA packet returns exactly the bytes of [@NAME:], the
    bytes of the device name and two line feeds, whatever the table, the
    pending list, the timestamps and the protocol version; for a device
    name that holds one it raises [UnicodeEncodeError]. *)
Theorem genpacket_metadata (float_repr : float -> string)
    (dn pv : string) (lut pt : float) (table : dict) (pending : list string)
    (mui : float) :
  let self := mkBase dn pv lut pt table pending mui in
  (encodable dn ->
   _genpacket float_repr self "METADATA"
   = Ok (list_ascii_of_string "@NAME:" ++ list_ascii_of_string dn
         ++ list_ascii_of_string (LF ++ LF))) /\
  (holds_surrogate dn ->
   _genpacket float_repr self "METADATA" = Raise UnicodeEncodeError).
Proof.
  intros self.
  assert (Hg : _genpacket float_repr self "METADATA"
               = str_encode ("@NAME:" ++ dn ++ nl ++ nl)) by reflexivity.
  rewrite Hg. unfold str_encode. rewrite metadata_encodable. split.
  - intros H. apply encodable_iff in H. rewrite H.
    now rewrite !list_ascii_of_string_app.
  - intros H. apply holds_surrogate_iff in H. now rewrite H.
Qed.

(** ** The invariant of the tracker *)

Lemma NoDup_snoc {A} (l : list A) (x : A) :
  NoDup l -> ~ In x l -> NoDup (l ++ [x]).
Proof.
  induction l as [| a l IH]; simpl; intros Hnd Hx.
  - constructor; [tauto | constructor].
  - inversion_clear Hnd as [| ? ? Ha Hl]. constructor.
    + rewrite in_app_iff. simpl. intros [H | [H | []]]; [tauto |].
      subst. tauto.
    + apply IH; tauto.
Qed.


Lemma tracker_inv_merge_kpi (self : BasePyNBP) (k : NbpKPI) :
  tracker_inv self -> tracker_inv (merge_kpi self k).
Proof.
  intros (Hin & Hname & Hndk & Hndu). unfold tracker_inv.
  rewrite updatelist_merge_kpi, kpis_merge_kpi, dict_keys_set.
  assert (Hkeys : forall n,
             In n (dict_keys (kpis self)) \/ n = name k ->
             In n (if str_in (name k) (dict_keys (kpis self))
                   then dict_keys (kpis self)
                   else dict_keys (kpis self) ++ [name k])).
  { intros n [H | ->].
    - destruct (str_in (name k) (dict_keys (kpis self)));
        [assumption | apply in_or_app; now left].
    - destruct (str_in (name k) (dict_keys (kpis self))) eqn:E;
        [now apply str_in_In | apply in_or_app; right; now left]. }
  split; [| split; [| split]].
  - intros n Hn. apply Hkeys.
    destruct (str_in (name k) (updatelist self)); [left; auto |].
    apply in_app_or in Hn as [Hn | [<- | []]]; [left; auto | now right].
  - intros k' v Hv. apply dict_set_In in Hv as [[= -> ->] | Hv]; auto.
  - destruct (str_in (name k) (dict_keys (kpis self))) eqn:E; [assumption |].
    apply NoDup_snoc; [assumption | now apply str_in_not_In].
  - destruct (str_in (name k) (updatelist self)) eqn:E; [assumption |].
    apply NoDup_snoc; [assumption | now apply str_in_not_In].
Qed.

Lemma tracker_inv_absorb_payload (self : BasePyNBP) (p : NbpPayload) :
  tracker_inv self -> tracker_inv (absorb_payload self p).
Proof.
  unfold absorb_payload. intros H.
  assert (H0 : tracker_inv (set_packettime self (timestamp p))) by exact H.
  revert H0. generalize (set_packettime self (timestamp p)).
  induction (nbpkpilist p) as [| k ks IH]; intros s Hs; simpl;
    [exact Hs | apply IH, tracker_inv_merge_kpi, Hs].
Qed.

(** Lines 135-136 and 211-212 keep the invariant. *)
Lemma tracker_inv_emitted (self : BasePyNBP) (t : float) :
  tracker_inv self ->
  tracker_inv (set_last_update_time (set_updatelist self []) t).
Proof.
  intros (_ & Hname & Hndk & _).
  split; [| split; [| split]]; simpl;
    [tauto | exact Hname | exact Hndk | constructor].
Qed.

(** A payload absorbed with an empty pending list leaves exactly its own
    names pending, in first-seen order. *)
Lemma updatelist_absorb_fresh (self : BasePyNBP) (p : NbpPayload) :
  updatelist self = [] ->
  updatelist (absorb_payload self p) = first_seen (map name (nbpkpilist p)).
Proof.
  intros Hu. unfold absorb_payload.
  assert (H : forall ks l s,
             updatelist s = first_seen (map name l) ->
             updatelist (fold_left merge_kpi ks s)
             = first_seen (map name (l ++ ks))).
  { induction ks as [| k ks IH]; intros l s Hs; simpl.
    - now rewrite app_nil_r.
    - replace (l ++ k :: ks) with ((l ++ [k]) ++ ks)
        by (now rewrite <- app_assoc).
      apply IH. rewrite updatelist_merge_kpi, Hs, map_app. simpl.
      now rewrite first_seen_snoc, str_in_first_seen. }
  apply (H (nbpkpilist p) [] (set_packettime self (timestamp p))).
  exact Hu.
Qed.

Lemma kpis_keys_absorb_payload (self : BasePyNBP) (p : NbpPayload) (n : string) :
  In n (dict_keys (kpis self)) ->
  In n (dict_keys (kpis (absorb_payload self p))).
Proof.
  unfold absorb_payload.
  change (kpis self) with (kpis (set_packettime self (timestamp p))).
  generalize (set_packettime self (timestamp p)).
  induction (nbpkpilist p) as [| k ks IH]; intros s Hs; simpl; [exact Hs |].
  apply IH. rewrite kpis_merge_kpi, dict_keys_set.
  destruct (str_in (name k) (dict_keys (kpis s)));
    [assumption | apply in_or_app; now left].
Qed.

(** ** What the program's own code can raise *)

Lemma utf8_decode_aux_raises (fuel : nat) (data : bytes) (e : exn) :
  utf8_decode_aux fuel data = Raise e -> e = UnicodeDecodeError.
Proof.
  revert data e. induction fuel as [| fuel IH]; intros data e; simpl.
  - destruct data; [discriminate | now intros [= <-]].
  - destruct data as [| b0 rest]; [discriminate |].
    repeat match goal with
    | |- context [if ?c then _ else _] => destruct c
    | |- match ?l with [] => _ | _ :: _ => _ end = _ -> _ => destruct l
    | |- bind (utf8_decode_aux fuel ?r) _ = _ -> _ =>
        let E := fresh "E" in
        destruct (utf8_decode_aux fuel r) eqn:E; cbn [bind];
        [discriminate | intros [= <-]; now apply (IH _ _ E)]
    end; try discriminate; now intros [= <-].
Qed.

Lemma utf8_decode_raises (data : bytes) (e : exn) :
  utf8_decode data = Raise e -> e = UnicodeDecodeError.
Proof. apply utf8_decode_aux_raises. Qed.

Section LoopFacts.

Variable float_repr : float -> string.



(** The ALL packet of any state. *)
Lemma genpacket_ALL (self : BasePyNBP) :
  _genpacket float_repr self "ALL" =
  str_encode (packet_text float_repr self "ALL" (dict_values (kpis self))).
Proof. now rewrite genpacket_closed_form by auto. Qed.

Lemma genpacket_ALL_Ok (self : BasePyNBP) (pkt : bytes) :
  _genpacket float_repr self "ALL" = Ok pkt ->
  pkt = packet_bytes float_repr self "ALL" (dict_values (kpis self)) /\
  encodable (packet_text float_repr self "ALL" (dict_values (kpis self))).
Proof. rewrite genpacket_ALL. apply str_encode_Ok. Qed.

Lemma genpacket_ALL_Raise (self : BasePyNBP) (e : exn) :
  _genpacket float_repr self "ALL" = Raise e ->
  e = UnicodeEncodeError /\
  holds_surrogate (packet_text float_repr self "ALL" (dict_values (kpis self))).
Proof. rewrite genpacket_ALL. apply str_encode_Raise. Qed.


Lemma strip_request_nonempty (data : bytes) (decoded : list N) :
  utf8_decode data = Ok decoded ->
  strip decoded = codepoints "!ALL" ->
  exists b rest, data = b :: rest.
Proof.
  destruct data as [| b rest]; [| eauto].
  intros [= <-]. discriminate.
Qed.

(** The first [try] of the socket loop when the client asks for
    everything. *)
Lemma wifi_try_recv_request (self : BasePyNBP) (env : WifiEnv) :
  requests_all env ->
  wifi_try_recv float_repr self env =
  match _genpacket float_repr self "ALL" with
  | Ok pkt =>
      ([LogText (codepoints "!ALL");
        LogMessage "ALL Packet Requested. Sending";
        SendReply pkt (w_send_reply env)],
       match w_send_reply env with Ok _ => None | Raise e => Some e end)
  | Raise e =>
      ([LogText (codepoints "!ALL");
        LogMessage "ALL Packet Requested. Sending"], Some e)
  end.
Proof.
  intros (data & decoded & Hrecv & Hdec & Hstrip).
  destruct (strip_request_nonempty data decoded Hdec Hstrip)
    as (b & rest & ->).
  unfold wifi_try_recv. rewrite Hrecv, Hdec, Hstrip.
  change (text_eqb (codepoints "!ALL") (codepoints "!ALL")) with true.
  cbv iota. now destruct (_genpacket float_repr self "ALL").
Qed.

End LoopFacts.

(** ** Claims on the loops *)


(** An iteration that starts disconnected with a port object left from an
    earlier session, and whose open fails, logs, stays disconnected with
    the payload merged, and goes on to the next dequeue. *)
Lemma serial_reopen_failure (float_repr : float -> string)
    (self : BasePyNBP) (env : SerialEnv) (e : exn) :
  s_open env = Raise e ->
  is_SerialException e = true ->
  serial_iteration float_repr (mkSerial self false (Some false)) env =
  Next (mkSerial (absorb_payload self (s_get env)) false (Some false))
       [LogMessage "Comm Port conection not open - waiting for connection"].
Proof.
  intros Ho He. unfold serial_iteration. cbn [s_connected s_serport s_self negb].
  now rewrite Ho, He.
Qed.

(** C5 (the code departs from the claim): on the first iteration, and on
    every iteration before the first successful open, [serport] is still
    [None]; when the open fails the iteration logs and merges the payload,
    but line 121 then reads [serport.is_open] and the [AttributeError]
    leaves [run] instead of reaching the next dequeue. *)
Theorem serial_first_open_failure (float_repr : float -> string)
    (self : BasePyNBP) (env : SerialEnv) (e : exn) :
  s_open env = Raise e ->
  is_SerialException e = true ->
  serial_iteration float_repr (serial_start self) env =
  Escape (AttributeError "'NoneType' object has no attribute 'is_open'")
         (mkSerial (absorb_payload self (s_get env)) false None)
         [LogMessage "Comm Port conection not open - waiting for connection"].
Proof.
  intros Ho He. unfold serial_iteration, serial_start.
  cbn [s_connected s_serport s_self negb].
  now rewrite Ho, He.
Qed.

(** In the serial loop an invalid kind that reaches the encoder leaves
    [run]: the handler there takes [SerialTimeoutException] only. *)
Lemma serial_invalid_kind_escapes (float_repr : float -> string)
    (self : BasePyNBP) (is_open : bool) (env : SerialEnv) :
  ~ In (packettype (s_get env)) ["ALL"; "UPDATE"; "METADATA"] ->
  s_in_waiting env = Ok 0%Z ->
  gate_closed (absorb_payload self (s_get env)) (s_time_gate env) = false ->
  serial_iteration float_repr (mkSerial self true (Some is_open)) env =
  Escape (ValueError ("Unrecognize ptype: " ++ packettype (s_get env)))
         (mkSerial (absorb_payload self (s_get env)) true (Some is_open)) [].
Proof.
  intros Hk Hw Hg. apply str_in_not_In in Hk.
  unfold serial_iteration, serial_try, _genpacket.
  cbn [s_connected s_serport s_self negb].
  rewrite Hw, Hg, Hk. reflexivity.
Qed.

(** In the socket loop the same error is taken by [except Exception]: it
    is logged as a failed write, the connection is closed and the loop goes
    on. *)
Lemma wifi_invalid_kind_swallowed (float_repr : float -> string)
    (self : BasePyNBP) (env : WifiEnv) :
  ~ In (packettype (w_get env)) ["ALL"; "UPDATE"; "METADATA"] ->
  w_recv env = Raise BlockingIOError ->
  gate_closed (absorb_payload self (w_get env)) (w_time_gate env) = false ->
  wifi_iteration float_repr (mkWifi self true) env =
  Next (mkWifi (absorb_payload self (w_get env)) false)
       [LogMessage "Wifi Write Failed. Closing port."; CloseConn].
Proof.
  intros Hk Hr Hg. apply str_in_not_In in Hk.
  unfold wifi_iteration, wifi_try_recv, wifi_finish, wifi_try_send, _genpacket.
  cbn [w_connected w_self negb].
  rewrite Hr, Hg, Hk. reflexivity.
Qed.

(** C4 (the code departs from the claim): the encoder raises [ValueError]
    on the kind [BOGUS]; dequeued by the socket broadcaster with a client
    connected and the rate gate open, the error does not leave [run]: it
    is handled like a failed send (logged, connection closed, state set to
    no client), while the serial broadcaster lets it escape. *)
Theorem wifi_swallows_invalid_kind :
  _genpacket Example.float_repr
    (absorb_payload Example.warm Example.bogus) "BOGUS"
  = Raise (ValueError "Unrecognize ptype: BOGUS") /\
  wifi_iteration Example.float_repr (mkWifi Example.warm true)
    (Example.wifi_at (Example.of_Z 1000) Example.bogus)
  = Next (mkWifi (absorb_payload Example.warm Example.bogus) false)
         [LogMessage "Wifi Write Failed. Closing port."; CloseConn] /\
  serial_iteration Example.float_repr (mkSerial Example.warm true (Some true))
    (Example.serial_at (Example.of_Z 1000) Example.bogus)
  = Escape (ValueError "Unrecognize ptype: BOGUS")
           (mkSerial (absorb_payload Example.warm Example.bogus) true
                     (Some true)) [].
Proof.
  split; [reflexivity | split].
  - apply wifi_invalid_kind_swallowed; [| reflexivity | reflexivity].
    cbn. intros [H | [H | [H | []]]]; discriminate.
  - apply (serial_invalid_kind_escapes Example.float_repr Example.warm true);
      [| reflexivity | reflexivity].
    cbn. intros [H | [H | [H | []]]]; discriminate.
Qed.

(** ** Which errors the loops handle *)

Section Handling.

Variable float_repr : float -> string.

(** The second [try] of the socket loop never lets an exception out. *)
Lemma wifi_finish_next (self : BasePyNBP) (env : WifiEnv) (tr : list event) :
  exists self' connected tr',
    wifi_finish float_repr self env tr
    = Next (mkWifi self' connected) (tr ++ tr').
Proof.
  unfold wifi_finish.
  destruct (wifi_try_send float_repr self env) as [[self' tr3] [e |]];
    cbn [is_Exception]; eauto.
Qed.






End Handling.



(** ** The rate gate and the effects of an emission *)

Section Emission.

Variable float_repr : float -> string.

Lemma regular_attempts_app (tr1 tr2 : list event) :
  regular_attempts (tr1 ++ tr2) = regular_attempts tr1 ++ regular_attempts tr2.
Proof.
  induction tr1 as [| ev tr1 IH]; [reflexivity |].
  destruct ev; simpl; now rewrite IH.
Qed.

Lemma regular_writes_app (tr1 tr2 : list event) :
  regular_writes (tr1 ++ tr2) = regular_writes tr1 ++ regular_writes tr2.
Proof.
  induction tr1 as [| ev tr1 IH]; [reflexivity |].
  destruct ev as [| | | ? [|] | | ? [|] | |]; simpl; now rewrite IH.
Qed.


Lemma wifi_try_recv_attempts (self : BasePyNBP) (env : WifiEnv) :
  regular_attempts (fst (wifi_try_recv float_repr self env)) = [] /\
  regular_writes (fst (wifi_try_recv float_repr self env)) = [].
Proof.
  unfold wifi_try_recv.
  repeat match goal with
  | |- context [match ?x with _ => _ end] => destruct x
  end; split; reflexivity.
Qed.


End Emission.


Section EmissionEffects.

Variable float_repr : float -> string.

(** What the body of [try] in the serial loop leaves in [self], by whether
    its write succeeded. *)
Lemma serial_try_effects (self : BasePyNBP) (env : SerialEnv) :
  let r := serial_try float_repr self env in
  (fst (fst r) = self /\ regular_writes (snd (fst r)) = []) \/
  (fst (fst r) = set_last_update_time (set_updatelist self []) (s_time_sent env)
   /\ snd r = None
   /\ exists pkt,
        _genpacket float_repr self (packettype (s_get env)) = Ok pkt /\
        regular_writes (snd (fst r)) = [pkt]).
Proof.
  unfold serial_try.
  destruct (s_in_waiting env) as [n |]; [| now left].
  assert (Hrd : forall tr,
             (if (0 <? n)%Z
              then data <- s_read env ;; text <- utf8_decode data ;;
                   Ok [LogText text]
              else Ok []) = Ok tr -> regular_writes tr = []).
  { intros tr. destruct (0 <? n)%Z; [| now intros [= <-]].
    destruct (s_read env) as [data |]; cbn [bind]; [| discriminate].
    destruct (utf8_decode data); cbn [bind]; [| discriminate].
    now intros [= <-]. }
  destruct (if (0 <? n)%Z then _ else _) as [tr |]; [| now left].
  specialize (Hrd tr eq_refl).
  destruct (gate_closed self (s_time_gate env)); [now left |].
  destruct (_genpacket float_repr self (packettype (s_get env))) as [pkt |];
    [| now left].
  destruct (s_write env) as [[] | e]; cbn [fst snd].
  - right. split; [reflexivity |]. split; [reflexivity |].
    exists pkt. split; [reflexivity |].
    now rewrite regular_writes_app, Hrd.
  - left. split; [reflexivity |]. now rewrite regular_writes_app, Hrd.
Qed.

(** What an iteration of the serial loop leaves in [self], by whether its
    regular write succeeded. *)
Lemma serial_iteration_effects (ss : SerialState) (senv : SerialEnv) :
  let sself := absorb_payload (s_self ss) (s_get senv) in
  let sout := serial_iteration float_repr ss senv in
  let final := s_self (state_of sout) in
  (final = sself /\ regular_writes (trace sout) = []) \/
  (final = set_last_update_time (set_updatelist sself []) (s_time_sent senv) /\
   exists pkt,
     _genpacket float_repr sself (packettype (s_get senv)) = Ok pkt /\
     regular_writes (trace sout) = [pkt]).
Proof.
  intros sself sout final. unfold final, sout, serial_iteration.
  fold sself.
  assert (Hrest : forall connected serport tr1,
             regular_writes tr1 = [] ->
             let o :=
               match serial_try float_repr sself senv with
               | (self', tr2, None) =>
                   Next (mkSerial self' connected serport) (tr1 ++ tr2)
               | (self', tr2, Some e) =>
                   if is_SerialTimeoutException e
                   then Next (mkSerial self' false (Some false))
                          (tr1 ++ tr2
                           ++ [LogMessage "Serial Write timeout. Closing port.";
                               ClosePort])
                   else Escape e (mkSerial self' connected serport)
                          (tr1 ++ tr2)
               end in
             (s_self (state_of o) = sself /\ regular_writes (trace o) = []) \/
             (s_self (state_of o)
              = set_last_update_time (set_updatelist sself [])
                  (s_time_sent senv) /\
              exists pkt,
                _genpacket float_repr sself (packettype (s_get senv)) = Ok pkt
                /\ regular_writes (trace o) = [pkt])).
  { intros connected serport tr1 H1.
    destruct (serial_try_effects sself senv) as [[Hs Hw] | (Hs & Hn & Hw)];
      destruct (serial_try float_repr sself senv) as [[self' tr2] [e |]];
      cbn [fst snd] in *; cbv zeta; try discriminate.
    - left. destruct (is_SerialTimeoutException e);
        cbn [state_of trace s_self]; rewrite ?regular_writes_app, H1, Hw;
        now split.
    - left. cbn [state_of trace s_self]. rewrite regular_writes_app, H1, Hw.
      now split.
    - right. cbn [state_of trace s_self]. split; [exact Hs |].
      destruct Hw as (pkt & Hg & Hw). exists pkt. split; [exact Hg |].
      now rewrite regular_writes_app, H1, Hw. }
  destruct (s_connected ss); cbn [negb].
  - destruct (s_serport ss) as [is_open |]; [| now left].
    apply (Hrest true (Some is_open) []). reflexivity.
  - destruct (s_open senv) as [[] | e].
    + apply (Hrest true (Some true) []). reflexivity.
    + destruct (is_SerialException e); [| now left].
      cbn [negb]. destruct (s_serport ss) as [[|] |]; cbn [negb];
        try (now left).
      apply (Hrest false (Some true)). reflexivity.
Qed.

(** The same for the socket loop. *)
Lemma wifi_iteration_effects (ws : WifiState) (wenv : WifiEnv) :
  let wself := absorb_payload (w_self ws) (w_get wenv) in
  let wout := wifi_iteration float_repr ws wenv in
  let final := w_self (state_of wout) in
  (final = wself /\ regular_writes (trace wout) = []) \/
  (final = set_last_update_time (set_updatelist wself []) (w_time_sent wenv) /\
   exists pkt,
     _genpacket float_repr wself (packettype (w_get wenv)) = Ok pkt /\
     regular_writes (trace wout) = [pkt]).
Proof.
  intros wself wout final. unfold final, wout, wifi_iteration. fold wself.
  assert (Hfin : forall tr,
             regular_writes tr = [] ->
             (w_self (state_of (wifi_finish float_repr wself wenv tr)) = wself
              /\ regular_writes
                   (trace (wifi_finish float_repr wself wenv tr)) = []) \/
             (w_self (state_of (wifi_finish float_repr wself wenv tr))
              = set_last_update_time (set_updatelist wself [])
                  (w_time_sent wenv) /\
              exists pkt,
                _genpacket float_repr wself (packettype (w_get wenv)) = Ok pkt
                /\ regular_writes
                     (trace (wifi_finish float_repr wself wenv tr)) = [pkt])).
  { intros tr Htr. unfold wifi_finish, wifi_try_send.
    destruct (gate_closed wself (w_time_gate wenv)).
    { left. cbn. now rewrite app_nil_r. }
    destruct (_genpacket float_repr wself (packettype (w_get wenv)))
      as [pkt |] eqn:Eg.
    - destruct (w_sendall wenv) as [[] | e]; cbn [is_Exception state_of trace w_self];
        rewrite ?regular_writes_app, Htr; cbn; eauto.
    - left. cbn. now rewrite !regular_writes_app, Htr. }
  destruct (wifi_try_recv_attempts float_repr wself wenv) as [_ Hrecv].
  assert (Hrest : forall tr1,
             regular_writes tr1 = [] ->
             let o := match wifi_try_recv float_repr wself wenv with
                      | (tr2, Some e) =>
                          if is_BlockingIOError e
                          then wifi_finish float_repr wself wenv (tr1 ++ tr2)
                          else Escape e (mkWifi wself true) (tr1 ++ tr2)
                      | (tr2, None) =>
                          wifi_finish float_repr wself wenv (tr1 ++ tr2)
                      end in
             (w_self (state_of o) = wself /\ regular_writes (trace o) = []) \/
             (w_self (state_of o)
              = set_last_update_time (set_updatelist wself [])
                  (w_time_sent wenv) /\
              exists pkt,
                _genpacket float_repr wself (packettype (w_get wenv)) = Ok pkt
                /\ regular_writes (trace o) = [pkt])).
  { intros tr1 H1.
    destruct (wifi_try_recv float_repr wself wenv) as [tr2 [e |]];
      cbn [fst] in Hrecv; cbv zeta.
    - destruct (is_BlockingIOError e).
      + apply Hfin. now rewrite regular_writes_app, H1, Hrecv.
      + left. cbn. now rewrite regular_writes_app, H1, Hrecv.
    - apply Hfin. now rewrite regular_writes_app, H1, Hrecv. }
  destruct (w_connected ws); cbn [negb].
  - apply (Hrest []). reflexivity.
  - destruct (w_accept wenv) as [addr | e].
    + apply Hrest. reflexivity.
    + destruct (is_socket_timeout e); left; split; reflexivity.
Qed.

(** The state that the second [try] of the socket loop leaves does not
    depend on the events before it. *)
Lemma wifi_finish_state (self : BasePyNBP) (env : WifiEnv)
    (tr tr' : list event) :
  state_of (wifi_finish float_repr self env tr) =
  state_of (wifi_finish float_repr self env tr').
Proof.
  unfold wifi_finish.
  now destruct (wifi_try_send float_repr self env) as [[self' tr3] [e |]].
Qed.

(** Lines 191-197 assign to no attribute of [self]: an iteration in which
    the client asks for everything and is answered ends in the state of
    the iteration in which the client has sent nothing; one in which the
    encoder of the answer raises ends with the merged state as it is. *)
Lemma all_reply_frame (ws : WifiState) (wenv : WifiEnv) :
  requests_all wenv ->
  w_send_reply wenv = Ok tt ->
  match _genpacket float_repr (absorb_payload (w_self ws) (w_get wenv)) "ALL"
  with
  | Ok _ =>
      state_of (wifi_iteration float_repr ws wenv) =
      state_of (wifi_iteration float_repr ws
                  (with_recv wenv (Raise BlockingIOError)))
  | Raise _ =>
      w_self (state_of (wifi_iteration float_repr ws wenv))
      = absorb_payload (w_self ws) (w_get wenv)
  end.
Proof.
  intros Hreq Hreply.
  unfold wifi_iteration. cbn [with_recv w_get w_accept].
  set (wself := absorb_payload (w_self ws) (w_get wenv)).
  pose proof (wifi_try_recv_request float_repr wself wenv Hreq) as Hl.
  rewrite Hreply in Hl.
  assert (Hr : wifi_try_recv float_repr wself
                 (with_recv wenv (Raise BlockingIOError))
               = ([], Some BlockingIOError)) by reflexivity.
  assert (Hf : forall tr,
             wifi_finish float_repr wself
               (with_recv wenv (Raise BlockingIOError)) tr
             = wifi_finish float_repr wself wenv tr) by reflexivity.
  destruct (_genpacket float_repr wself "ALL") as [pkt | e] eqn:Eg.
  - rewrite Hl, Hr. cbn [is_BlockingIOError].
    destruct (if negb (w_connected ws) then _ else _) as [[[|] tr1] | e];
      try reflexivity.
    rewrite Hf. apply wifi_finish_state.
  - rewrite Hl.
    destruct (genpacket_ALL_Raise float_repr wself e Eg) as [-> _].
    cbn [is_BlockingIOError].
    destruct (if negb (w_connected ws) then _ else _) as [[[|] tr1] | e'];
      reflexivity.
Qed.

End EmissionEffects.

(** C10: in both broadcasters [self.updatelist] is emptied and
    [self.last_update_time] set exactly in the iterations whose regular
    write succeeds: with no such write the iteration ends with the merged
    state as it is and the old emission time; with one, the packet written
    is the encoding of the payload's kind, whichever it is, the pending
    list is empty, the emission time is the clock read after the write, and
    the next payload alone fills the pending list.  The KPI table and the
    packet time are those of the merge in every case.  A METADATA emission
    is one of these: a KPI changed before it is absent from the UPDATE
    packet that follows.  The reply to [!ALL] changes nothing: the
    iteration in which it is sent ends in the state it would have reached
    had the client been silent, and the one in which its encoding is
    refused ends with the merged state as it is. *)
Theorem emission_effects (float_repr : float -> string)
    (ss : SerialState) (senv : SerialEnv) (ws : WifiState) (wenv : WifiEnv)
    (p : NbpPayload) :
  let sself := absorb_payload (s_self ss) (s_get senv) in
  let wself := absorb_payload (w_self ws) (w_get wenv) in
  let sout := serial_iteration float_repr ss senv in
  let wout := wifi_iteration float_repr ws wenv in
  let sfinal := s_self (state_of sout) in
  let wfinal := w_self (state_of wout) in
  (kpis sfinal = kpis sself /\
   packettime sfinal = timestamp (s_get senv) /\
   match regular_writes (trace sout) with
   | [] =>
       sfinal = sself /\
       last_update_time sfinal = last_update_time (s_self ss)
   | pkt :: others =>
       others = [] /\
       _genpacket float_repr sself (packettype (s_get senv)) = Ok pkt /\
       updatelist sfinal = [] /\
       last_update_time sfinal = s_time_sent senv /\
       updatelist (absorb_payload sfinal p)
       = first_seen (map name (nbpkpilist p))
   end) /\
  (kpis wfinal = kpis wself /\
   packettime wfinal = timestamp (w_get wenv) /\
   match regular_writes (trace wout) with
   | [] =>
       wfinal = wself /\
       last_update_time wfinal = last_update_time (w_self ws)
   | pkt :: others =>
       others = [] /\
       _genpacket float_repr wself (packettype (w_get wenv)) = Ok pkt /\
       updatelist wfinal = [] /\
       last_update_time wfinal = w_time_sent wenv /\
       updatelist (absorb_payload wfinal p)
       = first_seen (map name (nbpkpilist p))
   end) /\
  (requests_all wenv ->
   w_send_reply wenv = Ok tt ->
   match _genpacket float_repr wself "ALL" with
   | Ok _ =>
       state_of wout =
       state_of (wifi_iteration float_repr ws
                   (with_recv wenv (Raise BlockingIOError)))
   | Raise _ => w_self (state_of wout) = wself
   end) /\
  (let answered :=
     wifi_iteration Example.float_repr (mkWifi Example.warm true)
       Example.wifi_request in
   regular_writes (trace answered) = [] /\
   (exists pkt tr1 tr2, trace answered = tr1 ++ SendReply pkt (Ok tt) :: tr2) /\
   state_of answered
   = mkWifi (absorb_payload Example.warm (w_get Example.wifi_request)) true) /\
  (let expected :=
     [list_ascii_of_string ("@NAME:PyNBP" ++ LF ++ LF)%string;
      list_ascii_of_string
        ("*NBP1,UPDATE,1001.000000" ++ LF
         ++ QUOTE ++ "GEAR" ++ QUOTE ++ ":3" ++ LF
         ++ "#" ++ LF ++ LF)%string] in
   let srun :=
     serial_run Example.float_repr (mkSerial Example.warm true (Some true))
       [Example.serial_at (timestamp Example.meta) Example.meta;
        Example.serial_at (timestamp Example.after_meta) Example.after_meta] in
   let wrun :=
     wifi_run Example.float_repr (mkWifi Example.warm true)
       [Example.wifi_at (timestamp Example.meta) Example.meta;
        Example.wifi_at (timestamp Example.after_meta) Example.after_meta] in
   regular_writes (trace srun) = expected /\
   regular_writes (trace wrun) = expected /\
   dict_get (kpis (s_self (state_of srun))) "RPM" = Ok Example.rpm_4600 /\
   dict_get (kpis (w_self (state_of wrun))) "RPM" = Ok Example.rpm_4600).
Proof.
  intros sself wself sout wout sfinal wfinal.
  destruct (frame_absorb_payload (s_self ss) (s_get senv))
    as (_ & _ & Hslut & Hspt & _).
  destruct (frame_absorb_payload (w_self ws) (w_get wenv))
    as (_ & _ & Hwlut & Hwpt & _).
  split; [| split; [| split; [| split]]].
  - destruct (serial_iteration_effects float_repr ss senv)
      as [[Hf Hw] | (Hf & pkt & Hg & Hw)];
      fold sself sout in Hf, Hw; fold sfinal in Hf; rewrite Hw, Hf.
    + now repeat split.
    + fold sself in Hg. split; [reflexivity |]. split; [exact Hspt |].
      repeat split; [exact Hg |].
      now apply updatelist_absorb_fresh.
  - destruct (wifi_iteration_effects float_repr ws wenv)
      as [[Hf Hw] | (Hf & pkt & Hg & Hw)];
      fold wself wout in Hf, Hw; fold wfinal in Hf; rewrite Hw, Hf.
    + now repeat split.
    + fold wself in Hg. split; [reflexivity |]. split; [exact Hwpt |].
      repeat split; [exact Hg |].
      now apply updatelist_absorb_fresh.
  - apply all_reply_frame.
  - cbv zeta. split; [vm_compute; reflexivity |].
    split; [| vm_compute; reflexivity].
    exists (packet_bytes Example.float_repr
              (absorb_payload Example.warm (w_get Example.wifi_request)) "ALL"
              (dict_values
                 (kpis (absorb_payload Example.warm
                          (w_get Example.wifi_request))))),
           [LogText (codepoints "!ALL");
            LogMessage "ALL Packet Requested. Sending"], [].
    vm_compute. reflexivity.
  - cbv zeta. repeat split; vm_compute; reflexivity.
Qed.

(** ** The claims at the worked examples *)

Lemma tracker_inv_warm : tracker_inv Example.warm.
Proof.
  split; [| split; [| split]].
  - intros n [<- | []]. cbn. auto.
  - intros k v [[= <- <-] | [[= <- <-] | []]]; reflexivity.
  - cbn. repeat constructor; cbn; intuition discriminate.
  - cbn. repeat constructor. intros [].
Qed.



(** The UPDATE packet of the warm broadcaster holds its one pending KPI. *)
Lemma update_selection_warm :
  let pkt :=
    list_ascii_of_string
      ("*NBP1,UPDATE,990.000000" ++ LF
       ++ QUOTE ++ "RPM" ++ QUOTE ++ "," ++ QUOTE ++ "rpm" ++ QUOTE
       ++ ":4500" ++ LF
       ++ "#" ++ LF ++ LF) in
  _genpacket Example.float_repr Example.warm "UPDATE" = Ok pkt /\
  exists (sel : list NbpKPI) (tst : string) (lines : list string),
    timestamp_text (packettime Example.warm) tst /\
    Forall2 (line_of Example.float_repr) sel lines /\
    pkt = list_ascii_of_string
            ("*" ++ protocol_version Example.warm ++ "," ++ "UPDATE" ++ ","
                 ++ tst ++ LF ++ String.concat EmptyString lines
                 ++ "#" ++ LF ++ LF) /\
    pending_order (kpis Example.warm) ["RPM"] sel.
Proof.
  intros pkt.
  assert (H1 : _genpacket Example.float_repr Example.warm "UPDATE" = Ok pkt)
    by reflexivity.
  split; [exact H1 |].
  exact (update_selection Example.float_repr Example.warm pkt H1).
Defined.


(** A fresh serial broadcaster whose device cannot be opened stops. *)
Lemma serial_first_open_failure_fresh :
  s_open Example.serial_no_device = Raise SerialException /\
  is_SerialException SerialException = true /\
  serial_iteration Example.float_repr (serial_start Example.fresh)
    Example.serial_no_device
  = Escape (AttributeError "'NoneType' object has no attribute 'is_open'")
           (mkSerial (absorb_payload Example.fresh Example.p1) false None)
           [LogMessage "Comm Port conection not open - waiting for connection"].
Proof.
  split; [reflexivity |]. split; [reflexivity |].
  exact (serial_first_open_failure Example.float_repr Example.fresh
           Example.serial_no_device SerialException eq_refl eq_refl).
Defined.



(** * Further properties of the code *)

(** ** What holds along every run *)

(** A property of the state kept by every iteration holds at the end of
    every run. *)
Lemma run_loop_state_invariant {S E : Type} (step : S -> E -> outcome S)
    (P : S -> Prop) :
  (forall st env, P st -> P (state_of (step st env))) ->
  forall envs st, P st -> P (state_of (run_loop step st envs)).
Proof.
  intros Hstep. induction envs as [| env envs IH]; intros st Hst;
    [exact Hst |].
  cbn [run_loop]. specialize (Hstep st env Hst).
  destruct (step st env) as [st' tr | e st' tr]; [| exact Hstep].
  specialize (IH st' Hstep).
  now destruct (run_loop step st' envs).
Qed.


Lemma trace_after_events {S : Type} (tr0 : list event) (o : outcome S) :
  trace (after_events tr0 o) = tr0 ++ trace o.
Proof. now destruct o. Qed.

Section RunInvariants.

Variable float_repr : float -> string.

Lemma tracker_inv_serial_iteration (st : SerialState) (env : SerialEnv) :
  tracker_inv (s_self st) ->
  tracker_inv (s_self (state_of (serial_iteration float_repr st env))).
Proof.
  intros H. pose proof (serial_iteration_effects float_repr st env) as He.
  cbv zeta in He. destruct He as [[-> _] | [-> _]].
  - now apply tracker_inv_absorb_payload.
  - now apply tracker_inv_emitted, tracker_inv_absorb_payload.
Qed.

Lemma tracker_inv_wifi_iteration (st : WifiState) (env : WifiEnv) :
  tracker_inv (w_self st) ->
  tracker_inv (w_self (state_of (wifi_iteration float_repr st env))).
Proof.
  intros H. pose proof (wifi_iteration_effects float_repr st env) as He.
  cbv zeta in He. destruct He as [[-> _] | [-> _]].
  - now apply tracker_inv_absorb_payload.
  - now apply tracker_inv_emitted, tracker_inv_absorb_payload.
Qed.

Lemma tracker_inv_serial_run (st : SerialState) (envs : list SerialEnv) :
  tracker_inv (s_self st) ->
  tracker_inv (s_self (state_of (serial_run float_repr st envs))).
Proof.
  apply (run_loop_state_invariant (serial_iteration float_repr)
           (fun st => tracker_inv (s_self st))).
  exact tracker_inv_serial_iteration.
Qed.

Lemma tracker_inv_wifi_run (st : WifiState) (envs : list WifiEnv) :
  tracker_inv (w_self st) ->
  tracker_inv (w_self (state_of (wifi_run float_repr st envs))).
Proof.
  apply (run_loop_state_invariant (wifi_iteration float_repr)
           (fun st => tracker_inv (w_self st))).
  exact tracker_inv_wifi_iteration.
Qed.

End RunInvariants.

(** X1: Both loops keep the tracker well formed over any number of iterations,
    whatever the payloads, the clock and the transport answer, and whether
    the run goes on or is ended by an exception: every pending name is a
    key of the table, every entry of the table is filed under the name of
    its KPI, and neither the keys nor the pending names repeat. *)
Theorem tracker_inv_along_runs (float_repr : float -> string)
    (ss : SerialState) (senvs : list SerialEnv)
    (ws : WifiState) (wenvs : list WifiEnv) :
  tracker_inv (s_self ss) ->
  tracker_inv (w_self ws) ->
  let sfinal := s_self (state_of (serial_run float_repr ss senvs)) in
  let wfinal := w_self (state_of (wifi_run float_repr ws wenvs)) in
  ((forall n, In n (updatelist sfinal) -> In n (dict_keys (kpis sfinal))) /\
   (forall k v, In (k, v) (kpis sfinal) -> name v = k) /\
   NoDup (dict_keys (kpis sfinal)) /\
   NoDup (updatelist sfinal)) /\
  ((forall n, In n (updatelist wfinal) -> In n (dict_keys (kpis wfinal))) /\
   (forall k v, In (k, v) (kpis wfinal) -> name v = k) /\
   NoDup (dict_keys (kpis wfinal)) /\
   NoDup (updatelist wfinal)).
Proof.
  intros Hs Hw sfinal wfinal. split.
  - exact (tracker_inv_serial_run float_repr ss senvs Hs).
  - exact (tracker_inv_wifi_run float_repr ws wenvs Hw).
Qed.

(** The invariant holds after two payloads through each loop from the
    warm broadcaster. *)
Lemma tracker_inv_along_runs_warm :
  tracker_inv Example.warm /\
  NoDup (updatelist
           (s_self (state_of
              (serial_run Example.float_repr
                 (mkSerial Example.warm true (Some true))
                 [Example.serial_at (Example.of_Z 1000) Example.p1;
                  Example.serial_at (Example.of_Z 1001) Example.p3])))) /\
  NoDup (updatelist
           (w_self (state_of
              (wifi_run Example.float_repr (mkWifi Example.warm true)
                 [Example.wifi_at (Example.of_Z 1000) Example.p1;
                  Example.wifi_at (Example.of_Z 1001) Example.p3])))).
Proof.
  split; [exact tracker_inv_warm |].
  pose proof (tracker_inv_along_runs Example.float_repr
                (mkSerial Example.warm true (Some true))
                [Example.serial_at (Example.of_Z 1000) Example.p1;
                 Example.serial_at (Example.of_Z 1001) Example.p3]
                (mkWifi Example.warm true)
                [Example.wifi_at (Example.of_Z 1000) Example.p1;
                 Example.wifi_at (Example.of_Z 1001) Example.p3]
                tracker_inv_warm tracker_inv_warm) as H.
  split; [exact (proj2 (proj2 (proj2 (proj1 H))))
         | exact (proj2 (proj2 (proj2 (proj2 H))))].
Defined.


(** ** The tracker from any state *)

Lemma str_in_filter (x : string) (f : string -> bool) (l : list string) :
  str_in x (filter f l) = str_in x l && f x.
Proof.
  destruct (str_in x l && f x) eqn:E.
  - apply andb_prop in E as [E1 E2]. apply str_in_In, filter_In.
    split; [now apply str_in_In | exact E2].
  - apply str_in_not_In. rewrite filter_In, <- str_in_In.
    intros [H1 H2]. now rewrite H1, H2 in E.
Qed.

Lemma str_in_extend (x : string) (l ns : list string) :
  str_in x (extend l ns) = str_in x l || str_in x ns.
Proof.
  unfold extend.
  rewrite str_in_app, str_in_filter, str_in_first_seen.
  now destruct (str_in x l), (str_in x ns).
Qed.

Lemma extend_snoc (l ns : list string) (x : string) :
  extend l (ns ++ [x]) =
  if str_in x (extend l ns) then extend l ns else extend l ns ++ [x].
Proof.
  rewrite str_in_extend. unfold extend. rewrite first_seen_snoc.
  destruct (str_in x ns) eqn:En.
  - now rewrite orb_true_r.
  - rewrite orb_false_r, filter_app. cbn [filter].
    destruct (str_in x l); cbn [negb];
      [now rewrite app_nil_r | now rewrite app_assoc].
Qed.

Lemma extend_nil (l : list string) : extend l [] = l.
Proof. unfold extend. cbn. apply app_nil_r. Qed.

(** Everything of [ns] is already in [l]: nothing is added. *)
Lemma extend_absorbed (l ns : list string) :
  (forall n, In n ns -> In n l) -> extend l ns = l.
Proof.
  intros H. unfold extend.
  assert (E : filter (fun n => negb (str_in n l)) (first_seen ns) = []).
  { induction (first_seen ns) as [| a fs IH] eqn:Efs in H |- *.
    - reflexivity.
    - assert (Ha : In a l).
      { apply H. apply (In_first_seen a ns). rewrite Efs. now left. }
      apply str_in_In in Ha.
      assert (Hall : forall n, In n (a :: fs) -> str_in n l = true).
      { intros n Hn. apply str_in_In, H, (In_first_seen n ns).
        now rewrite Efs. }
      clear - Hall. induction (a :: fs) as [| b bs IHb]; [reflexivity |].
      cbn [filter]. rewrite (Hall b (or_introl eq_refl)). cbn [negb].
      apply IHb. intros n Hn. apply Hall. now right. }
  rewrite E. apply app_nil_r.
Qed.

(** The pending list, the keys and the entries after the loop of lines
    108-111 over [ks], from any state. *)
Lemma merge_all_closed_form (ks : list NbpKPI) (self : BasePyNBP) :
  let self' := fold_left merge_kpi ks self in
  updatelist self' = extend (updatelist self) (map name ks) /\
  dict_keys (kpis self') = extend (dict_keys (kpis self)) (map name ks) /\
  forall n, dict_get (kpis self') n =
            match last_write n ks with
            | Some k => Ok k
            | None => dict_get (kpis self) n
            end.
Proof.
  cbv zeta. induction ks as [| k ks IH] using rev_ind.
  - cbn. rewrite !extend_nil. auto.
  - destruct IH as (Hu & Hk & Hg).
    rewrite fold_left_app. cbn [fold_left].
    rewrite updatelist_merge_kpi, kpis_merge_kpi, dict_keys_set.
    rewrite map_app. cbn [map]. rewrite !extend_snoc, Hu, Hk.
    split; [reflexivity |]. split; [reflexivity |].
    intros n. rewrite dict_get_set, last_write_snoc, Hg.
    now destruct (String.eqb (name k) n).
Qed.

Lemma base_ext (a b : BasePyNBP) :
  device_name a = device_name b ->
  protocol_version a = protocol_version b ->
  last_update_time a = last_update_time b ->
  packettime a = packettime b ->
  kpis a = kpis b ->
  updatelist a = updatelist b ->
  min_update_interval a = min_update_interval b ->
  a = b.
Proof. destruct a, b; cbn; intros; subst; reflexivity. Qed.

Lemma last_write_names (n : string) (ks : list NbpKPI) (k : NbpKPI) :
  last_write n ks = Some k -> In n (map name ks).
Proof.
  intros H. apply last_write_name in H as [<- Hin]. now apply in_map.
Qed.

Lemma set_packettime_merge_all (ks : list NbpKPI) (self : BasePyNBP)
    (t : float) :
  fold_left merge_kpi ks (set_packettime self t)
  = set_packettime (fold_left merge_kpi ks self) t.
Proof.
  revert self. induction ks as [| k ks IH]; intros self; [reflexivity |].
  cbn [fold_left]. rewrite <- IH. f_equal.
  unfold merge_kpi. cbn [updatelist set_packettime].
  now destruct (str_in (name k) (updatelist self)).
Qed.

(** X3: Merging a payload into any state (lines 106-111 and 170-175): the
    pending names keep their order and the names of the payload that were
    not pending are appended once each, in the order the payload first
    shows them; the keys of the table grow in the same way, so that a KPI
    sent again keeps its place; a name of the payload answers with the
    last KPI the payload gives it, every other name as before. *)
Theorem absorb_payload_from_any_state (self : BasePyNBP) (p : NbpPayload) :
  let self' := absorb_payload self p in
  let names := map name (nbpkpilist p) in
  updatelist self' = extend (updatelist self) names /\
  dict_keys (kpis self') = extend (dict_keys (kpis self)) names /\
  (forall n, dict_get (kpis self') n =
             match last_write n (nbpkpilist p) with
             | Some k => Ok k
             | None => dict_get (kpis self) n
             end) /\
  (forall n, In n (updatelist self') <-> In n (updatelist self) \/ In n names) /\
  packettime self' = timestamp p.
Proof.
  cbv zeta.
  destruct (merge_all_closed_form (nbpkpilist p)
              (set_packettime self (timestamp p))) as (Hu & Hk & Hg).
  fold (absorb_payload self p) in Hu, Hk, Hg.
  cbn [updatelist kpis set_packettime] in Hu, Hk, Hg.
  split; [exact Hu |]. split; [exact Hk |]. split; [exact Hg |].
  split; [| apply frame_absorb_payload].
  intros n. rewrite Hu.
  rewrite <- (str_in_In n (extend _ _)), str_in_extend, orb_true_iff.
  now rewrite !str_in_In.
Qed.

(** X4: A payload delivered twice in a row leaves the state that one delivery
    leaves: nothing is queued twice and no entry changes. *)
Theorem absorb_payload_idempotent (self : BasePyNBP) (p : NbpPayload) :
  tracker_inv self ->
  absorb_payload (absorb_payload self p) p = absorb_payload self p.
Proof.
  intros Hinv.
  set (once := absorb_payload self p).
  assert (Hin : forall l n, In n (map name (nbpkpilist p)) ->
                            In n (extend l (map name (nbpkpilist p)))).
  { intros l n Hn. apply str_in_In. rewrite str_in_extend.
    apply str_in_In in Hn. rewrite Hn. apply orb_true_r. }
  destruct (merge_all_closed_form (nbpkpilist p)
              (set_packettime self (timestamp p))) as (Hu1 & Hk1 & Hg1).
  fold (absorb_payload self p) in Hu1, Hk1, Hg1. fold once in Hu1, Hk1, Hg1.
  cbn [updatelist kpis set_packettime] in Hu1, Hk1, Hg1.
  destruct (merge_all_closed_form (nbpkpilist p)
              (set_packettime once (timestamp p))) as (Hu2 & Hk2 & Hg2).
  fold (absorb_payload once p) in Hu2, Hk2, Hg2.
  cbn [updatelist kpis set_packettime] in Hu2, Hk2, Hg2.
  destruct (frame_absorb_payload self p) as (Hd1 & Hp1 & Hl1 & Ht1 & Hm1).
  destruct (frame_absorb_payload once p) as (Hd2 & Hp2 & Hl2 & Ht2 & Hm2).
  fold once in Hd1, Hp1, Hl1, Ht1, Hm1.
  assert (Hkeys : dict_keys (kpis (absorb_payload once p))
                  = dict_keys (kpis once)).
  { rewrite Hk2. apply extend_absorbed. intros n Hn. rewrite Hk1.
    now apply Hin. }
  apply base_ext; try congruence.
  - apply dict_ext.
    + rewrite Hkeys.
      now apply (tracker_inv_absorb_payload self p Hinv).
    + exact Hkeys.
    + intros n _. rewrite Hg2.
      destruct (last_write n (nbpkpilist p)) as [k |] eqn:E; [| reflexivity].
      now rewrite Hg1, E.
  - rewrite Hu2. apply extend_absorbed. intros n Hn. rewrite Hu1.
    now apply Hin.
Qed.

(** Delivering the warm broadcaster's next payload twice. *)
Lemma absorb_payload_idempotent_warm :
  tracker_inv Example.warm /\
  absorb_payload (absorb_payload Example.warm Example.p2) Example.p2
  = absorb_payload Example.warm Example.p2.
Proof.
  split; [exact tracker_inv_warm |].
  exact (absorb_payload_idempotent Example.warm Example.p2 tracker_inv_warm).
Defined.

(** X5: With no emission in between, the state after a sequence of payloads is
    the state after the single payload that carries all their KPIs in
    order under the last timestamp: how the KPIs are split into payloads
    does not matter to the tracker. *)
Theorem absorb_all_as_one_payload (self : BasePyNBP) (ps : list NbpPayload)
    (kind : string) :
  absorb_all self ps =
  absorb_payload self
    (mkPayload (last (map timestamp ps) (packettime self)) kind (all_kpis ps)).
Proof.
  revert self. induction ps as [| p ps IH]; intros self.
  - now destruct self.
  - unfold absorb_all. cbn [fold_left].
    fold (absorb_all (absorb_payload self p) ps). rewrite IH.
    destruct (frame_absorb_payload self p) as (_ & _ & _ & Ht & _).
    rewrite Ht. cbn [map]. rewrite last_cons.
    unfold absorb_payload, all_kpis.
    cbn [timestamp nbpkpilist flat_map].
    rewrite fold_left_app. f_equal.
    now rewrite <- !set_packettime_merge_all.
Qed.

(** ** The encoder: failures and the shape of what it returns *)










(** X8: The framing of what [_genpacket] returns: a METADATA packet is
    [@NAME:], the bytes of the device name and two newlines; every other
    packet starts with [*] and ends with [#] and two newlines.  The first
    byte tells the two apart, and every packet ends with an empty line. *)
Theorem packet_framing (float_repr : float -> string)
    (self : BasePyNBP) (kind : string) (pkt : bytes) :
  _genpacket float_repr self kind = Ok pkt ->
  if String.eqb kind "METADATA"
  then pkt = list_ascii_of_string "@NAME:"
             ++ list_ascii_of_string (device_name self)
             ++ list_ascii_of_string (LF ++ LF)
  else exists middle : bytes,
         pkt = "*"%char :: middle ++ list_ascii_of_string ("#" ++ LF ++ LF).
Proof.
  intros H.
  assert (Hframe : forall k sel,
            exists middle : bytes,
              packet_bytes float_repr self k sel
              = "*"%char :: middle
                  ++ list_ascii_of_string ("#" ++ LF ++ LF)).
  { intros k sel.
    exists (list_ascii_of_string (protocol_version self ++ "," ++ k ++ ","
                                  ++ format_6f (packettime self) ++ nl)
            ++ list_ascii_of_string (body float_repr sel)).
    unfold packet_bytes, packet_text, header, footer.
    rewrite !list_ascii_of_string_app. cbn [list_ascii_of_string app].
    now rewrite <- !app_assoc. }
  destruct (str_in kind ["ALL"; "UPDATE"; "METADATA"]) eqn:Ek.
  - apply str_in_In in Ek.
    destruct Ek as [<- | [<- | [<- | []]]].
    + apply genpacket_Ok in H as (sel & _ & _ & ->); [| now left].
      apply Hframe.
    + apply genpacket_Ok in H as (sel & _ & _ & ->); [| now right].
      apply Hframe.
    + change (_genpacket float_repr self "METADATA") with (metadata self) in H.
      unfold metadata in H. apply str_encode_Ok in H as [-> _].
      cbn [String.eqb Ascii.eqb Bool.eqb].
      now rewrite !list_ascii_of_string_app.
  - unfold _genpacket in H. rewrite Ek in H. discriminate.
Qed.

(** The UPDATE packet of the warm broadcaster is framed. *)
Lemma packet_framing_warm :
  let pkt :=
    list_ascii_of_string
      ("*NBP1,UPDATE,990.000000" ++ LF
       ++ QUOTE ++ "RPM" ++ QUOTE ++ "," ++ QUOTE ++ "rpm" ++ QUOTE
       ++ ":4500" ++ LF
       ++ "#" ++ LF ++ LF) in
  _genpacket Example.float_repr Example.warm "UPDATE" = Ok pkt /\
  exists middle : bytes,
    pkt = "*"%char :: middle ++ list_ascii_of_string ("#" ++ LF ++ LF).
Proof.
  intros pkt.
  assert (H : _genpacket Example.float_repr Example.warm "UPDATE" = Ok pkt)
    by reflexivity.
  split; [exact H |].
  exact (packet_framing Example.float_repr Example.warm "UPDATE" pkt H).
Defined.

(** ** The loops: what is sent, and when *)

Lemma text_eqb_eq (a b : list N) : text_eqb a b = true -> a = b.
Proof. unfold text_eqb. now destruct (list_eq_dec N.eq_dec a b). Qed.

Section LoopSends.

Variable float_repr : float -> string.

(** A reply in the events of the first [try] answers a request. *)
Lemma wifi_try_recv_reply (self : BasePyNBP) (env : WifiEnv)
    (pkt : bytes) (r : res Datatypes.unit) :
  In (SendReply pkt r) (fst (wifi_try_recv float_repr self env)) ->
  requests_all env /\ r = w_send_reply env /\
  _genpacket float_repr self "ALL" = Ok pkt.
Proof.
  unfold wifi_try_recv.
  destruct (w_recv env) as [[| b rest] | e] eqn:Hrecv; cbn [fst];
    [intros [] | | intros []].
  destruct (utf8_decode (b :: rest)) as [decoded | e] eqn:Hdec; cbn [fst];
    [| intros []].
  destruct (text_eqb (strip decoded) (codepoints "!ALL")) eqn:Ht; cbn [fst];
    [| intros [H | []]; discriminate].
  apply text_eqb_eq in Ht.
  destruct (_genpacket float_repr self "ALL") as [pkt' | e] eqn:Hg; cbn [fst].
  - intros [H | [H | [H | []]]]; try discriminate.
    injection H as <- <-. repeat split.
    exists (b :: rest), decoded. auto.
  - intros [H | [H | []]]; discriminate.
Qed.

(** The second [try] of the socket loop sends no reply. *)
Lemma wifi_finish_no_reply (self : BasePyNBP) (env : WifiEnv)
    (tr : list event) (pkt : bytes) (r : res Datatypes.unit) :
  In (SendReply pkt r) (trace (wifi_finish float_repr self env tr)) ->
  In (SendReply pkt r) tr.
Proof.
  unfold wifi_finish, wifi_try_send.
  destruct (gate_closed self (w_time_gate env)).
  { cbn [trace]. now rewrite app_nil_r. }
  destruct (_genpacket float_repr self (packettype (w_get env))) as [p |].
  - destruct (w_sendall env) as [[] | e]; cbn [is_Exception trace];
      rewrite !in_app_iff; cbn [In]; intuition discriminate.
  - cbn [is_Exception trace]. rewrite !in_app_iff. cbn [In].
    intuition discriminate.
Qed.

(** The events of a socket iteration with a client: those of the first
    [try], after the connection message if the client was just accepted,
    then those of the second [try] if it is reached. *)
Lemma wifi_iteration_trace (st : WifiState) (env : WifiEnv) :
  w_connected st = true \/ (exists addr, w_accept env = Ok addr) ->
  exists tr1 tr3,
    forallb is_log tr1 = true /\
    trace (wifi_iteration float_repr st env)
    = tr1 ++ fst (wifi_try_recv float_repr
                    (absorb_payload (w_self st) (w_get env)) env) ++ tr3.
Proof.
  intros Hc. unfold wifi_iteration.
  set (self := absorb_payload (w_self st) (w_get env)).
  assert (Hrest : forall tr1, forallb is_log tr1 = true ->
            exists tr1' tr3,
              forallb is_log tr1' = true /\
              trace (match wifi_try_recv float_repr self env with
                     | (tr2, Some e) =>
                         if is_BlockingIOError e
                         then wifi_finish float_repr self env (tr1 ++ tr2)
                         else Escape e (mkWifi self true) (tr1 ++ tr2)
                     | (tr2, None) =>
                         wifi_finish float_repr self env (tr1 ++ tr2)
                     end)
              = tr1' ++ fst (wifi_try_recv float_repr self env) ++ tr3).
  { intros tr1 Hlog. exists tr1.
    assert (Hf : forall tr, exists tr3,
               trace (wifi_finish float_repr self env tr) = tr ++ tr3).
    { intros tr.
      destruct (wifi_finish_next float_repr self env tr) as (s' & c & tr' & ->).
      now exists tr'. }
    destruct (wifi_try_recv float_repr self env) as [tr2 [e |]]; cbn [fst].
    - destruct (is_BlockingIOError e).
      + destruct (Hf (tr1 ++ tr2)) as [tr3 ->]. exists tr3.
        now rewrite <- app_assoc.
      + exists []. cbn [trace]. now rewrite app_nil_r.
    - destruct (Hf (tr1 ++ tr2)) as [tr3 ->]. exists tr3.
      now rewrite <- app_assoc. }
  destruct (w_connected st) eqn:Ec; cbn [negb].
  - apply (Hrest []). reflexivity.
  - destruct Hc as [Hc | [addr Ha]]; [discriminate |].
    rewrite Ha. apply Hrest. reflexivity.
Qed.

End LoopSends.

(** X10: The reply of line 197 is sent only on request: whenever an iteration
    of the socket loop hands a packet to [conn.sendall] outside the
    rate-gated send, the client's data decoded and stripped to [!ALL], the
    packet is the ALL packet of the state just merged, and a client was
    connected or accepted in that iteration. *)
Theorem reply_only_on_request (float_repr : float -> string)
    (st : WifiState) (env : WifiEnv) (pkt : bytes) (r : res Datatypes.unit) :
  In (SendReply pkt r) (trace (wifi_iteration float_repr st env)) ->
  let self := absorb_payload (w_self st) (w_get env) in
  requests_all env /\
  r = w_send_reply env /\
  pkt = packet_bytes float_repr self "ALL" (dict_values (kpis self)) /\
  (w_connected st = true \/ exists addr, w_accept env = Ok addr).
Proof.
  intros Hin self.
  assert (Hrecv : In (SendReply pkt r)
                     (fst (wifi_try_recv float_repr self env)) /\
                  (w_connected st = true \/ exists addr, w_accept env = Ok addr)).
  { revert Hin. unfold wifi_iteration. fold self.
    assert (Hrest : forall tr1, forallb is_log tr1 = true ->
              In (SendReply pkt r)
                 (trace (match wifi_try_recv float_repr self env with
                         | (tr2, Some e) =>
                             if is_BlockingIOError e
                             then wifi_finish float_repr self env (tr1 ++ tr2)
                             else Escape e (mkWifi self true) (tr1 ++ tr2)
                         | (tr2, None) =>
                             wifi_finish float_repr self env (tr1 ++ tr2)
                         end)) ->
              In (SendReply pkt r) (fst (wifi_try_recv float_repr self env))).
    { intros tr1 Hlog H.
      assert (Hno : ~ In (SendReply pkt r) tr1).
      { intros Hi. rewrite forallb_forall in Hlog.
        now specialize (Hlog _ Hi). }
      destruct (wifi_try_recv float_repr self env) as [tr2 [e |]]; cbn [fst].
      - destruct (is_BlockingIOError e);
          [apply wifi_finish_no_reply in H | cbn [trace] in H];
          apply in_app_iff in H; tauto.
      - apply wifi_finish_no_reply in H. apply in_app_iff in H. tauto. }
    destruct (w_connected st); cbn [negb].
    - intros H. split; [now apply (Hrest []) | now left].
    - destruct (w_accept env) as [addr | e].
      + intros H. split; [| right; eauto].
        apply Hrest in H; [exact H | reflexivity].
      + destruct (is_socket_timeout e); cbn [trace In];
          intros H; [destruct H as [H | []]; discriminate | destruct H]. }
  destruct Hrecv as [Hrecv Hc].
  apply wifi_try_recv_reply in Hrecv as (Hreq & -> & Hpkt).
  apply genpacket_ALL_Ok in Hpkt as [-> _].
  repeat split; assumption.
Qed.

(** The reply to the client of the warm broadcaster. *)
Lemma reply_only_on_request_warm :
  let self := absorb_payload Example.warm (w_get Example.wifi_request) in
  let pkt := packet_bytes Example.float_repr self "ALL"
               (dict_values (kpis self)) in
  In (SendReply pkt (Ok tt))
     (trace (wifi_iteration Example.float_repr (mkWifi Example.warm true)
               Example.wifi_request)) /\
  requests_all Example.wifi_request.
Proof.
  intros self pkt.
  assert (H : In (SendReply pkt (Ok tt))
                 (trace (wifi_iteration Example.float_repr
                           (mkWifi Example.warm true) Example.wifi_request))).
  { right. right. left. reflexivity. }
  split; [exact H |].
  exact (proj1 (reply_only_on_request Example.float_repr
                  (mkWifi Example.warm true) Example.wifi_request
                  pkt (Ok tt) H)).
Defined.

(** ** The request token and undecodable input *)

(** ASCII bytes decode to themselves. *)
Lemma utf8_decode_ascii (data : bytes) :
  forallb (fun b => (byte_val b <? 128)%N) data = true ->
  utf8_decode data = Ok (map byte_val data).
Proof.
  unfold utf8_decode. induction data as [| b rest IH]; [reflexivity |].
  cbn [forallb List.length utf8_decode_aux map]. intros H.
  apply andb_prop in H as [Hb Hrest].
  cbv zeta. rewrite Hb, (IH Hrest). reflexivity.
Qed.

Lemma lstrip_spaces (ws rest : list N) :
  forallb isspace ws = true -> lstrip (ws ++ rest) = lstrip rest.
Proof.
  induction ws as [| c ws IH]; [reflexivity |].
  cbn [forallb app lstrip]. intros H. apply andb_prop in H as [Hc Hws].
  rewrite Hc. now apply IH.
Qed.

Lemma forallb_rev {A : Type} (f : A -> bool) (l : list A) :
  forallb f l = true -> forallb f (rev l) = true.
Proof.
  rewrite !forallb_forall. intros H x Hx. apply H. now apply in_rev.
Qed.

(** [strip] removes the white space around the token. *)
Lemma strip_token (ws1 ws2 : list N) :
  forallb isspace ws1 = true ->
  forallb isspace ws2 = true ->
  strip (ws1 ++ codepoints "!ALL" ++ ws2) = codepoints "!ALL".
Proof.
  intros H1 H2. unfold strip.
  rewrite (lstrip_spaces ws1 _ H1).
  change (lstrip (codepoints "!ALL" ++ ws2)) with (codepoints "!ALL" ++ ws2).
  rewrite rev_app_distr, (lstrip_spaces (rev ws2) _ (forallb_rev _ _ H2)).
  reflexivity.
Qed.

Lemma forallb_ascii_space (ws : bytes) :
  forallb is_ascii_space ws = true ->
  forallb (fun b => (byte_val b <? 128)%N) ws = true /\
  forallb isspace (map byte_val ws) = true.
Proof.
  induction ws as [| b ws IH]; [now split |].
  cbn [forallb map]. intros H. apply andb_prop in H as [Hb Hws].
  unfold is_ascii_space in Hb. apply andb_prop in Hb as [Hb1 Hb2].
  destruct (IH Hws) as [IH1 IH2]. now rewrite Hb1, Hb2, IH1, IH2.
Qed.

(** X11: The request is recognised with any ASCII white space around it
    (spaces, tabs, line ends): with a client connected, data made of white
    space, the four bytes [!ALL] and white space makes the iteration
    encode the ALL packet of the merged state and hand it to
    [conn.sendall]; if the encoder raises, its error leaves [run] after
    the two log lines. *)
Theorem request_with_whitespace (float_repr : float -> string)
    (self : BasePyNBP) (env : WifiEnv) (ws1 ws2 : bytes) :
  forallb is_ascii_space ws1 = true ->
  forallb is_ascii_space ws2 = true ->
  w_recv env = Ok (ws1 ++ list_ascii_of_string "!ALL" ++ ws2) ->
  let merged := absorb_payload self (w_get env) in
  match _genpacket float_repr merged "ALL" with
  | Ok pkt =>
      pkt = packet_bytes float_repr merged "ALL" (dict_values (kpis merged)) /\
      In (SendReply pkt (w_send_reply env))
         (trace (wifi_iteration float_repr (mkWifi self true) env))
  | Raise e =>
      wifi_iteration float_repr (mkWifi self true) env
      = Escape e (mkWifi merged true)
          [LogText (codepoints "!ALL");
           LogMessage "ALL Packet Requested. Sending"]
  end.
Proof.
  intros H1 H2 Hrecv merged.
  destruct (forallb_ascii_space ws1 H1) as [Ha1 Hs1].
  destruct (forallb_ascii_space ws2 H2) as [Ha2 Hs2].
  assert (Hreq : requests_all env).
  { exists (ws1 ++ list_ascii_of_string "!ALL" ++ ws2),
           (map byte_val (ws1 ++ list_ascii_of_string "!ALL" ++ ws2)).
    split; [exact Hrecv |]. split.
    - apply utf8_decode_ascii. rewrite !forallb_app, Ha1, Ha2. reflexivity.
    - rewrite !map_app. now apply strip_token. }
  pose proof (wifi_try_recv_request float_repr merged env Hreq) as Htry.
  destruct (_genpacket float_repr merged "ALL") as [pkt | e] eqn:Eg.
  - split; [now apply genpacket_ALL_Ok in Eg |].
    destruct (wifi_iteration_trace float_repr (mkWifi self true) env)
      as (tr1 & tr3 & _ & ->); [now left |].
    cbn [w_self]. fold merged. rewrite Htry. cbn [fst].
    rewrite !in_app_iff. right. left. right. right. now left.
  - destruct (genpacket_ALL_Raise float_repr merged e Eg) as [-> _].
    unfold wifi_iteration. cbn [w_connected w_self negb]. fold merged.
    rewrite Htry. reflexivity.
Qed.

(** The request of the examples ends with a newline. *)
Lemma request_with_whitespace_warm :
  forallb is_ascii_space [] = true /\
  forallb is_ascii_space (list_ascii_of_string LF) = true /\
  w_recv Example.wifi_request
  = Ok ([] ++ list_ascii_of_string "!ALL" ++ list_ascii_of_string LF) /\
  In (SendReply
        (list_ascii_of_string
           ("*NBP1,ALL,990.050000" ++ LF
            ++ QUOTE ++ "RPM" ++ QUOTE ++ "," ++ QUOTE ++ "rpm" ++ QUOTE
            ++ ":4600" ++ LF
            ++ QUOTE ++ "GEAR" ++ QUOTE ++ ":3" ++ LF
            ++ "#" ++ LF ++ LF))
        (Ok tt))
     (trace (wifi_iteration Example.float_repr (mkWifi Example.warm true)
               Example.wifi_request)).
Proof.
  split; [reflexivity |]. split; [reflexivity |]. split; [reflexivity |].
  exact (proj2 (request_with_whitespace Example.float_repr Example.warm
                  Example.wifi_request [] (list_ascii_of_string LF)
                  eq_refl eq_refl eq_refl)).
Defined.

(** X12: Data from the client that is not valid UTF-8 ends the socket
    broadcaster: [data.decode()] raises [UnicodeDecodeError], the first
    [try] handles [BlockingIOError] only, and the error leaves [run] with
    the payload merged and nothing sent. *)
Theorem wifi_undecodable_input_escapes (float_repr : float -> string)
    (st : WifiState) (env : WifiEnv) (data : bytes) (e : exn) :
  w_connected st = true \/ (exists addr, w_accept env = Ok addr) ->
  w_recv env = Ok data ->
  utf8_decode data = Raise e ->
  exists tr,
    wifi_iteration float_repr st env
    = Escape UnicodeDecodeError
             (mkWifi (absorb_payload (w_self st) (w_get env)) true) tr /\
    forallb is_log tr = true.
Proof.
  intros Hc Hrecv Hdec.
  pose proof (utf8_decode_raises data e Hdec) as ->.
  assert (Htry : forall self,
             wifi_try_recv float_repr self env = ([], Some UnicodeDecodeError)).
  { intros self. unfold wifi_try_recv. rewrite Hrecv.
    destruct data as [| b rest]; [discriminate |]. now rewrite Hdec. }
  unfold wifi_iteration. rewrite Htry. cbn [is_BlockingIOError].
  destruct (w_connected st); cbn [negb].
  - eexists. split; reflexivity.
  - destruct Hc as [Hc | [addr Ha]]; [discriminate |].
    rewrite Ha. eexists. split; reflexivity.
Qed.

(** A lone byte [0xFF] from the client. *)
Lemma wifi_undecodable_input_example :
  let env := with_recv Example.wifi_request (Ok ["255"%char]) in
  (w_connected (mkWifi Example.warm true) = true \/
   exists addr, w_accept env = Ok addr) /\
  w_recv env = Ok ["255"%char] /\
  utf8_decode ["255"%char] = Raise UnicodeDecodeError /\
  exists tr,
    wifi_iteration Example.float_repr (mkWifi Example.warm true) env
    = Escape UnicodeDecodeError
             (mkWifi (absorb_payload Example.warm (w_get env)) true) tr /\
    forallb is_log tr = true.
Proof.
  intros env.
  assert (H1 : w_connected (mkWifi Example.warm true) = true \/
               exists addr, w_accept env = Ok addr) by (left; reflexivity).
  split; [exact H1 |]. split; [reflexivity |]. split; [reflexivity |].
  exact (wifi_undecodable_input_escapes Example.float_repr
           (mkWifi Example.warm true) env ["255"%char] UnicodeDecodeError
           H1 eq_refl eq_refl).
Defined.

(** X13: The same on the serial side: inbound bytes that are not valid UTF-8
    end the serial broadcaster, since the handler of the [try] takes
    [SerialTimeoutException] only. *)
Theorem serial_undecodable_input_escapes (float_repr : float -> string)
    (self : BasePyNBP) (is_open : bool) (env : SerialEnv)
    (n : Z) (data : bytes) (e : exn) :
  s_in_waiting env = Ok n ->
  (0 < n)%Z ->
  s_read env = Ok data ->
  utf8_decode data = Raise e ->
  serial_iteration float_repr (mkSerial self true (Some is_open)) env
  = Escape UnicodeDecodeError
           (mkSerial (absorb_payload self (s_get env)) true (Some is_open)) [].
Proof.
  intros Hn Hpos Hread Hdec.
  pose proof (utf8_decode_raises data e Hdec) as ->.
  unfold serial_iteration, serial_try.
  cbn [s_connected s_serport s_self negb].
  rewrite Hn. apply Z.ltb_lt in Hpos. rewrite Hpos, Hread.
  cbn [bind]. rewrite Hdec. reflexivity.
Qed.

(** A lone byte [0xFF] waiting on the serial port. *)
Lemma serial_undecodable_input_example :
  let env := mkSerialEnv Example.p1 (Ok tt) (Ok 1%Z) (Ok ["255"%char])
               (Example.of_Z 1000) (Ok tt) (Example.of_Z 1000) in
  s_in_waiting env = Ok 1%Z /\
  (0 < 1)%Z /\
  s_read env = Ok ["255"%char] /\
  utf8_decode ["255"%char] = Raise UnicodeDecodeError /\
  serial_iteration Example.float_repr (mkSerial Example.warm true (Some true))
    env
  = Escape UnicodeDecodeError
           (mkSerial (absorb_payload Example.warm Example.p1) true (Some true))
           [].
Proof.
  intros env. split; [reflexivity |]. split; [reflexivity |].
  split; [reflexivity |]. split; [reflexivity |].
  exact (serial_undecodable_input_escapes Example.float_repr Example.warm true
           env 1%Z ["255"%char] UnicodeDecodeError
           eq_refl eq_refl eq_refl eq_refl).
Defined.

(** ** Waiting for a peer *)

Lemma In_updatelist_absorb_payload (self : BasePyNBP) (p : NbpPayload)
    (n : string) :
  In n (updatelist (absorb_payload self p)) <->
  In n (updatelist self) \/ In n (map name (nbpkpilist p)).
Proof.
  destruct (merge_all_closed_form (nbpkpilist p)
              (set_packettime self (timestamp p))) as (Hu & _).
  fold (absorb_payload self p) in Hu. cbn [updatelist set_packettime] in Hu.
  rewrite Hu.
  rewrite <- (str_in_In n (extend _ _)), str_in_extend, orb_true_iff.
  now rewrite !str_in_In.
Qed.

(** A name that was pending, or that some payload carries, is pending
    after the payloads are merged. *)
Lemma In_updatelist_absorb_all (ps : list NbpPayload) (self : BasePyNBP)
    (n : string) :
  In n (updatelist self) \/ In n (map name (all_kpis ps)) ->
  In n (updatelist (absorb_all self ps)).
Proof.
  unfold absorb_all, all_kpis. revert self.
  induction ps as [| p ps IH]; intros self; cbn [fold_left flat_map map].
  - intros [H | []]. exact H.
  - intros H. apply IH. rewrite In_updatelist_absorb_payload.
    rewrite map_app, in_app_iff in H. tauto.
Qed.

Section Waiting.

Variable float_repr : float -> string.

Lemma wifi_run_waiting (envs : list WifiEnv) (self : BasePyNBP) :
  Forall accept_times_out envs ->
  wifi_run float_repr (mkWifi self false) envs
  = Next (mkWifi (absorb_all self (map w_get envs)) false)
         (map (fun _ => LogMessage
                 "Socket conection not open - waiting for connection") envs).
Proof.
  intros H. revert self.
  induction H as [| env envs Henv _ IH]; intros self; [reflexivity |].
  unfold wifi_run in *. cbn [run_loop].
  unfold wifi_iteration at 1. cbn [w_connected w_self negb].
  red in Henv. rewrite Henv. cbn [is_socket_timeout].
  now rewrite IH.
Qed.

End Waiting.

(** X14: While no client connects, [WifiPyNBP.run] only accumulates: once the
    socket is set up, if every [accept] times out the run consumes every
    payload, sends nothing, logs the binding and one line per payload, and
    holds the merge of all the payloads, still waiting, with the name of
    every KPI received meanwhile pending. *)
Theorem wifi_waiting_accumulates (float_repr : float -> string)
    (self : WifiPyNBP) (setup : WifiSetup) (envs : list WifiEnv) :
  w_socket setup = Ok tt ->
  w_bind setup = Ok tt ->
  w_listen setup = Ok tt ->
  Forall accept_times_out envs ->
  let merged := absorb_all (wifi_base self) (map w_get envs) in
  WifiPyNBP_run float_repr self setup envs
  = Next (mkWifi merged false)
         (LogMessage ("Binding to " ++ _ip self ++ ":" ++ str_int (_port self))
          :: map (fun _ => LogMessage
                    "Socket conection not open - waiting for connection") envs)
  /\ (forall env k, In env envs -> In k (nbpkpilist (w_get env)) ->
      In (name k) (updatelist merged)).
Proof.
  intros Hs Hb Hl Hacc merged. split.
  - unfold WifiPyNBP_run. rewrite Hs, Hb, Hl. unfold wifi_start.
    now rewrite (wifi_run_waiting float_repr envs _ Hacc).
  - intros env k Henv Hk. unfold merged.
    apply In_updatelist_absorb_all. right. apply in_map.
    unfold all_kpis. apply in_flat_map. exists (w_get env).
    split; [now apply in_map | exact Hk].
Qed.

(** Two payloads with nobody listening. *)
Lemma wifi_waiting_accumulates_example :
  let self := WifiPyNBP_init None None None None None in
  let setup := mkWifiSetup (Ok tt) (Ok tt) (Ok tt) in
  let envs := [Example.wifi_broken_pipe;
               with_recv Example.wifi_broken_pipe (Ok [])] in
  w_socket setup = Ok tt /\ w_bind setup = Ok tt /\ w_listen setup = Ok tt /\
  Forall accept_times_out envs /\
  WifiPyNBP_run Example.float_repr self setup envs
  = Next (mkWifi (absorb_all (wifi_base self) (map w_get envs)) false)
         (LogMessage ("Binding to " ++ _ip self ++ ":" ++ str_int (_port self))
          :: map (fun _ => LogMessage
                    "Socket conection not open - waiting for connection") envs).
Proof.
  intros self setup envs.
  assert (H : Forall accept_times_out envs)
    by (repeat constructor).
  split; [reflexivity |]. split; [reflexivity |]. split; [reflexivity |].
  split; [exact H |].
  exact (proj1 (wifi_waiting_accumulates Example.float_repr self setup envs
                  eq_refl eq_refl eq_refl H)).
Defined.

(** X15: After a write timeout has closed the port, [PyNBP.run] only
    accumulates while the device cannot be opened again: every such
    iteration merges its payload, logs one line, sends nothing and stays
    disconnected, and none ends the run. *)
Theorem serial_closed_port_accumulates (float_repr : float -> string)
    (self : BasePyNBP) (envs : list SerialEnv) :
  Forall open_fails envs ->
  serial_run float_repr (mkSerial self false (Some false)) envs
  = Next (mkSerial (absorb_all self (map s_get envs)) false (Some false))
         (map (fun _ => LogMessage
                 "Comm Port conection not open - waiting for connection") envs).
Proof.
  intros H. revert self.
  induction H as [| env envs Henv _ IH]; intros self; [reflexivity |].
  unfold serial_run in *. cbn [run_loop].
  unfold serial_iteration at 1. cbn [s_connected s_self s_serport negb].
  destruct Henv as (e & -> & ->). cbn [negb].
  now rewrite IH.
Qed.

(** Two payloads while the device is away. *)
Lemma serial_closed_port_accumulates_example :
  let envs := [Example.serial_no_device; Example.serial_no_device] in
  Forall open_fails envs /\
  serial_run Example.float_repr (mkSerial Example.warm false (Some false)) envs
  = Next (mkSerial (absorb_all Example.warm (map s_get envs)) false
                   (Some false))
         (map (fun _ => LogMessage
                 "Comm Port conection not open - waiting for connection") envs).
Proof.
  intros envs.
  assert (H : Forall open_fails envs).
  { repeat constructor; exists SerialException; split; reflexivity. }
  split; [exact H |].
  exact (serial_closed_port_accumulates Example.float_repr Example.warm envs H).
Defined.

(** ** One regular emission per payload at most *)

Lemma run_loop_attempts_bound {S E : Type} (step : S -> E -> outcome S) :
  (forall st env,
     List.length (regular_attempts (trace (step st env))) <= 1) ->
  forall envs st,
    List.length (regular_attempts (trace (run_loop step st envs)))
    <= List.length envs.
Proof.
  intros Hstep. induction envs as [| env envs IH]; intros st; [apply le_n |].
  cbn [run_loop List.length]. specialize (Hstep st env).
  destruct (step st env) as [st' tr | e st' tr]; cbn [trace] in *.
  - specialize (IH st').
    destruct (run_loop step st' envs) as [st'' tr' | e st'' tr'];
      cbn [trace] in *; rewrite regular_attempts_app, length_app; lia.
  - lia.
Qed.

Section Attempts.

Variable float_repr : float -> string.

Lemma serial_try_attempts (self : BasePyNBP) (env : SerialEnv) :
  attempts_ok float_repr self (packettype (s_get env)) (s_time_gate env)
    (regular_attempts (snd (fst (serial_try float_repr self env)))).
Proof.
  unfold serial_try, attempts_ok.
  destruct (s_in_waiting env) as [n |]; [| now left].
  assert (Hrd : forall tr,
             (if (0 <? n)%Z
              then data <- s_read env ;; text <- utf8_decode data ;;
                   Ok [LogText text]
              else Ok []) = Ok tr -> regular_attempts tr = []).
  { intros tr. destruct (0 <? n)%Z; [| now intros [= <-]].
    destruct (s_read env) as [data |]; cbn [bind]; [| discriminate].
    destruct (utf8_decode data); cbn [bind]; [| discriminate].
    now intros [= <-]. }
  destruct (if (0 <? n)%Z then _ else _) as [tr |]; [| now left].
  specialize (Hrd tr eq_refl).
  destruct (gate_closed self (s_time_gate env)); [now left |].
  destruct (_genpacket float_repr self (packettype (s_get env))) as [pkt |];
    [| now left].
  right. split; [reflexivity |]. exists pkt. split; [reflexivity |].
  destruct (s_write env) as [[] | e]; cbn [fst snd];
    now rewrite regular_attempts_app, Hrd.
Qed.

Lemma serial_iteration_attempts (st : SerialState) (env : SerialEnv) :
  attempts_ok float_repr (absorb_payload (s_self st) (s_get env))
    (packettype (s_get env)) (s_time_gate env)
    (regular_attempts (trace (serial_iteration float_repr st env))).
Proof.
  unfold serial_iteration.
  set (self := absorb_payload (s_self st) (s_get env)).
  assert (Hrest : forall connected serport tr1,
             regular_attempts tr1 = [] ->
             attempts_ok float_repr self (packettype (s_get env)) (s_time_gate env)
               (regular_attempts
                  (trace
                     match serial_try float_repr self env with
                     | (self', tr2, None) =>
                         Next (mkSerial self' connected serport) (tr1 ++ tr2)
                     | (self', tr2, Some e) =>
                         if is_SerialTimeoutException e
                         then Next (mkSerial self' false (Some false))
                                (tr1 ++ tr2
                                 ++ [LogMessage
                                       "Serial Write timeout. Closing port.";
                                     ClosePort])
                         else Escape e (mkSerial self' connected serport)
                                (tr1 ++ tr2)
                     end))).
  { intros connected serport tr1 H1.
    pose proof (serial_try_attempts self env) as Ht.
    destruct (serial_try float_repr self env) as [[self' tr2] [e |]];
      cbn [fst snd] in Ht;
      [destruct (is_SerialTimeoutException e) |]; cbn [trace];
      rewrite ?regular_attempts_app, H1; cbn [app regular_attempts];
      rewrite ?app_nil_r; exact Ht. }
  destruct (s_connected st); cbn [negb].
  - destruct (s_serport st) as [is_open |]; [| now left].
    apply (Hrest true (Some is_open) []). reflexivity.
  - destruct (s_open env) as [[] | e].
    + apply (Hrest true (Some true) []). reflexivity.
    + destruct (is_SerialException e); [| now left].
      cbn [negb]. destruct (s_serport st) as [[|] |]; cbn [negb];
        try (now left).
      apply (Hrest false (Some true)). reflexivity.
Qed.

Lemma wifi_iteration_attempts (st : WifiState) (env : WifiEnv) :
  attempts_ok float_repr (absorb_payload (w_self st) (w_get env))
    (packettype (w_get env)) (w_time_gate env)
    (regular_attempts (trace (wifi_iteration float_repr st env))).
Proof.
  unfold wifi_iteration.
  set (self := absorb_payload (w_self st) (w_get env)).
  assert (Hfin : forall tr,
             regular_attempts tr = [] ->
             attempts_ok float_repr self (packettype (w_get env)) (w_time_gate env)
               (regular_attempts
                  (trace (wifi_finish float_repr self env tr)))).
  { intros tr Htr. unfold wifi_finish, wifi_try_send, attempts_ok.
    destruct (gate_closed self (w_time_gate env)).
    { left. cbn [trace]. now rewrite app_nil_r. }
    destruct (_genpacket float_repr self (packettype (w_get env)))
      as [pkt |].
    - right. split; [reflexivity |]. exists pkt. split; [reflexivity |].
      destruct (w_sendall env) as [[] | e]; cbn [is_Exception trace];
        now rewrite !regular_attempts_app, Htr.
    - left. cbn [is_Exception trace]. now rewrite !regular_attempts_app, Htr. }
  destruct (wifi_try_recv_attempts float_repr self env) as [Hrecv _].
  assert (Hrest : forall tr1,
             regular_attempts tr1 = [] ->
             attempts_ok float_repr self (packettype (w_get env)) (w_time_gate env)
               (regular_attempts
                  (trace
                     match wifi_try_recv float_repr self env with
                     | (tr2, Some e) =>
                         if is_BlockingIOError e
                         then wifi_finish float_repr self env (tr1 ++ tr2)
                         else Escape e (mkWifi self true) (tr1 ++ tr2)
                     | (tr2, None) =>
                         wifi_finish float_repr self env (tr1 ++ tr2)
                     end))).
  { intros tr1 H1.
    destruct (wifi_try_recv float_repr self env) as [tr2 [e |]];
      cbn [fst] in Hrecv.
    - destruct (is_BlockingIOError e).
      + apply Hfin. now rewrite regular_attempts_app, H1, Hrecv.
      + left. cbn [trace]. now rewrite regular_attempts_app, H1, Hrecv.
    - apply Hfin. now rewrite regular_attempts_app, H1, Hrecv. }
  destruct (w_connected st); cbn [negb].
  - apply (Hrest []). reflexivity.
  - destruct (w_accept env) as [addr | e].
    + apply Hrest. reflexivity.
    + destruct (is_socket_timeout e); now left.
Qed.

End Attempts.

(** X16: In either loop an iteration hands at most one packet to the regular
    write of lines 134 and 210, and only when the time since the last
    emission is not below the minimum interval; the packet is the encoding
    of the payload's kind from the state just merged.  Over a run there are
    thus at most as many regular emissions as payloads. *)
Theorem one_emission_per_payload (float_repr : float -> string)
    (ss : SerialState) (senv : SerialEnv) (ws : WifiState) (wenv : WifiEnv)
    (senvs : list SerialEnv) (wenvs : list WifiEnv) :
  let sself := absorb_payload (s_self ss) (s_get senv) in
  let wself := absorb_payload (w_self ws) (w_get wenv) in
  match regular_attempts (trace (serial_iteration float_repr ss senv)) with
  | [] => True
  | pkt :: others =>
      others = [] /\
      gate_closed sself (s_time_gate senv) = false /\
      _genpacket float_repr sself (packettype (s_get senv)) = Ok pkt
  end /\
  match regular_attempts (trace (wifi_iteration float_repr ws wenv)) with
  | [] => True
  | pkt :: others =>
      others = [] /\
      gate_closed wself (w_time_gate wenv) = false /\
      _genpacket float_repr wself (packettype (w_get wenv)) = Ok pkt
  end /\
  List.length (regular_attempts (trace (serial_run float_repr ss senvs)))
  <= List.length senvs /\
  List.length (regular_attempts (trace (wifi_run float_repr ws wenvs)))
  <= List.length wenvs.
Proof.
  intros sself wself.
  assert (Hone : forall self kind now l,
             attempts_ok float_repr self kind now l -> List.length l <= 1).
  { intros self kind now l [-> | (_ & pkt & _ & ->)]; cbn; lia. }
  split; [| split; [| split]].
  - destruct (serial_iteration_attempts float_repr ss senv)
      as [-> | (Hg & pkt & Hp & ->)]; [exact I | now repeat split].
  - destruct (wifi_iteration_attempts float_repr ws wenv)
      as [-> | (Hg & pkt & Hp & ->)]; [exact I | now repeat split].
  - apply run_loop_attempts_bound. intros st env.
    apply (Hone _ _ _ _ (serial_iteration_attempts float_repr st env)).
  - apply run_loop_attempts_bound. intros st env.
    apply (Hone _ _ _ _ (wifi_iteration_attempts float_repr st env)).
Qed.

(** ** What a run never changes *)

Lemma keeps_refl (self : BasePyNBP) : keeps self self.
Proof. repeat split. exists []. now rewrite app_nil_r. Qed.

Lemma keeps_absorb_payload (self0 self : BasePyNBP) (p : NbpPayload) :
  keeps self0 self -> keeps self0 (absorb_payload self p).
Proof.
  intros (Hd & Hp & Hm & more & Hk).
  destruct (frame_absorb_payload self p) as (Hd' & Hp' & _ & _ & Hm').
  destruct (merge_all_closed_form (nbpkpilist p)
              (set_packettime self (timestamp p))) as (_ & Hk' & _).
  fold (absorb_payload self p) in Hk'. cbn [kpis set_packettime] in Hk'.
  repeat split; try congruence.
  rewrite Hk'. unfold extend. rewrite Hk, <- app_assoc. eauto.
Qed.

(** X17: Neither loop ever changes the device name, the protocol version or
    the minimum interval, and neither ever removes or reorders a KPI of
    the table: at the end of any run, however it ends, the keys the table
    had at the start are still there, in the same order, before any key
    added since. *)
Theorem run_keeps_configuration_and_keys (float_repr : float -> string)
    (ss : SerialState) (senvs : list SerialEnv)
    (ws : WifiState) (wenvs : list WifiEnv) :
  let sfinal := s_self (state_of (serial_run float_repr ss senvs)) in
  let wfinal := w_self (state_of (wifi_run float_repr ws wenvs)) in
  (device_name sfinal = device_name (s_self ss) /\
   protocol_version sfinal = protocol_version (s_self ss) /\
   min_update_interval sfinal = min_update_interval (s_self ss) /\
   exists more,
     dict_keys (kpis sfinal) = dict_keys (kpis (s_self ss)) ++ more) /\
  (device_name wfinal = device_name (w_self ws) /\
   protocol_version wfinal = protocol_version (w_self ws) /\
   min_update_interval wfinal = min_update_interval (w_self ws) /\
   exists more,
     dict_keys (kpis wfinal) = dict_keys (kpis (w_self ws)) ++ more).
Proof.
  intros sfinal wfinal. split.
  - apply (run_loop_state_invariant (serial_iteration float_repr)
             (fun st => keeps (s_self ss) (s_self st)));
      [| apply keeps_refl].
    intros st env H.
    pose proof (serial_iteration_effects float_repr st env) as He.
    cbv zeta in He.
    destruct He as [[-> _] | [-> _]];
      exact (keeps_absorb_payload _ _ _ H).
  - apply (run_loop_state_invariant (wifi_iteration float_repr)
             (fun st => keeps (w_self ws) (w_self st)));
      [| apply keeps_refl].
    intros st env H.
    pose proof (wifi_iteration_effects float_repr st env) as He.
    cbv zeta in He.
    destruct He as [[-> _] | [-> _]];
      exact (keeps_absorb_payload _ _ _ H).
Qed.
